(** * Annual mean AOD export script ([scripts/01_gee_export_aod.py])

    The script builds, for each year of a range, an Earth Engine expression
    (collection filtered by date and boundary, quality mask mapped over the
    images, band selected, temporal mean, scale factor, clip) and submits it
    as an export task.  The development below embeds

    - the expression objects the script constructs ([Module ee]),
    - the pixel-level meaning of the operations the script calls,
    - the script itself, as a computation with exceptions that logs every
      external call (prints, initialization, authentication, task starts),
      with the range of years as a parameter ([main] is the script with its
      own constants),
    - the script once more with a memory, where building the boundary
      object, binding the name [usa] and reading it are steps of the
      run. *)

From Stdlib Require Import ZArith QArith List String Ascii Bool Lia.
From Stdlib Require Import DecimalString DecimalZ.
Import ListNotations.

Local Open Scope string_scope.
Local Open Scope Z_scope.

(** ** Python's [str] on integers, as used by the f-strings *)

Definition str (n : Z) : string := NilEmpty.string_of_int (Z.to_int n).

(** ** Expression objects of the Earth Engine client

    Constructors carry the names of the client methods the script calls.
    [arg] stands for the image a mapped function is applied to. *)

Module ee.

Inductive Filter : Type :=
| Filter_eq (name value : string).

Inductive FeatureCollection : Type :=
| FeatureCollection_id (id : string)
| filter (fc : FeatureCollection) (f : Filter).

Inductive Geometry : Type :=
| geometry (fc : FeatureCollection).

Inductive Image : Type :=
| arg
| Image_select (i : Image) (band : string)
| bitwiseAnd (i : Image) (k : Z)
| rightShift (i : Image) (k : Z)
| eq (i : Image) (k : Z)
| And (a b : Image)
| updateMask (i mask : Image)
| mean (c : ImageCollection)
| multiply (i : Image) (k : Q)
| clip (i : Image) (g : Geometry)
with ImageCollection : Type :=
| ImageCollection_id (id : string)
| filterDate (c : ImageCollection) (start_ end_ : string)
| filterBounds (c : ImageCollection) (g : Geometry)
| map (c : ImageCollection) (body : Image)
| select (c : ImageCollection) (band : string).

End ee.

(** ** The quality assurance mask function *)

Definition maskAOD (image : ee.Image) : ee.Image :=
  let qa := ee.Image_select image "AOD_QA" in
  (* Condition 1: cloud mask, bits 0-2, value 1 *)
  let cloudMask := ee.eq (ee.bitwiseAnd qa 7) 1 in
  (* Condition 2: land/water mask, bits 3-4, value 0 *)
  let landMask := ee.eq (ee.bitwiseAnd (ee.rightShift qa 3) 3) 0 in
  (* Condition 3: AOD QA, bits 8-11, value 0 *)
  let qualityMask := ee.eq (ee.bitwiseAnd (ee.rightShift qa 8) 15) 0 in
  let finalMask := ee.And (ee.And cloudMask landMask) qualityMask in
  ee.updateMask image finalMask.

(** ** Pixel-level meaning of the per-image operations

    A pixel of an image is the list of its bands, each with its stored
    integer value, or [None] where the band is masked at that pixel. *)

Definition Pixel : Type := list (string * option Z).

Definition truth (b : bool) : Z := if b then 1 else 0.

Definition nonzero (v : Z) : bool := negb (v =? 0).

Definition lift1 (f : Z -> Z) (p : Pixel) : Pixel :=
  List.map (fun bv => (fst bv, option_map f (snd bv))) p.

Definition lift2 (f : Z -> Z -> Z) (p q : Pixel) : Pixel :=
  List.map
    (fun xy =>
       (fst (fst xy),
        match snd (fst xy), snd (snd xy) with
        | Some a, Some b => Some (f a b)
        | _, _ => None
        end))
    (List.combine p q).

Definition has_name (band : string) (bv : string * option Z) : bool :=
  String.eqb (fst bv) band.

Definition select_band (band : string) (p : Pixel) : Pixel :=
  List.filter (has_name band) p.

(** [select] of a band the image does not have is an error of the
    platform ([None]). *)
Definition select_pixel (band : string) (p : Pixel) : option Pixel :=
  match select_band band p with
  | [] => None
  | l => Some l
  end.

Definition has_band (band : string) (p : Pixel) : bool :=
  match select_band band p with
  | [] => false
  | _ => true
  end.

(** A single-band mask lets the pixel through where it is unmasked and
    not zero. *)
Definition mask_bit (m : Pixel) : bool :=
  match m with
  | [(_, Some v)] => nonzero v
  | _ => false
  end.

Definition mask_all (p : Pixel) : Pixel :=
  List.map (fun bv => (fst bv, @None Z)) p.

Definition apply_mask (keep : bool) (p : Pixel) : Pixel :=
  if keep then p else mask_all p.

(** [eval e p]: the pixel of the image [e] when [arg] has pixel [p], or
    [None] where the platform reports an error (a selected band is
    absent).  The temporal and real-valued operations are not operations
    on one stored pixel: there too [eval] answers [None]. *)
Fixpoint eval (e : ee.Image) (p : Pixel) : option Pixel :=
  match e with
  | ee.arg => Some p
  | ee.Image_select i band =>
      match eval i p with
      | Some x => select_pixel band x
      | None => None
      end
  | ee.bitwiseAnd i k => option_map (lift1 (fun v => Z.land v k)) (eval i p)
  | ee.rightShift i k => option_map (lift1 (fun v => Z.shiftr v k)) (eval i p)
  | ee.eq i k => option_map (lift1 (fun v => truth (v =? k))) (eval i p)
  | ee.And a b =>
      match eval a p, eval b p with
      | Some x, Some y =>
          Some (lift2 (fun u v => truth (nonzero u && nonzero v)) x y)
      | _, _ => None
      end
  | ee.updateMask i m =>
      match eval i p, eval m p with
      | Some x, Some y => Some (apply_mask (mask_bit y) x)
      | _, _ => None
      end
  | ee.mean _ | ee.multiply _ _ | ee.clip _ _ => None
  end.

(** The mask image an [updateMask] expression applies. *)
Definition mask_of (e : ee.Image) : option ee.Image :=
  match e with
  | ee.updateMask _ m => Some m
  | _ => None
  end.

(** The decision of [maskAOD] at a pixel: the value of its final mask. *)
Definition mask_decision (p : Pixel) : option bool :=
  match mask_of (maskAOD ee.arg) with
  | Some m => option_map mask_bit (eval m p)
  | None => None
  end.

(** The decision as a predicate on the packed quality value alone. *)
Definition pixel_mask (q : Z) : bool :=
  match mask_decision [("AOD_QA", Some q)] with
  | Some b => b
  | None => false
  end.

(** The pixel carries quality value [q] in its (one) band [AOD_QA]. *)
Definition qa_value (p : Pixel) (q : Z) : Prop :=
  select_band "AOD_QA" p = [("AOD_QA", Some q)].

(** ** Dates and the date filter

    An instant is a calendar day (UTC) and the milliseconds elapsed in it;
    instants are ordered lexicographically. *)

Record DateTime : Type := mkDateTime
  { dt_year : Z; dt_month : Z; dt_day : Z; dt_ms : Z }.

Definition dt_compare (a b : DateTime) : comparison :=
  match dt_year a ?= dt_year b with
  | Eq =>
      match dt_month a ?= dt_month b with
      | Eq =>
          match dt_day a ?= dt_day b with
          | Eq => dt_ms a ?= dt_ms b
          | c => c
          end
      | c => c
      end
  | c => c
  end.

Definition before (a b : DateTime) : bool :=
  match dt_compare a b with Lt => true | _ => false end.

Definition digit (c : ascii) : option Z :=
  let n := Z.of_nat (nat_of_ascii c) in
  if (48 <=? n) && (n <=? 57) then Some (n - 48) else None.

Definition digits (cs : list ascii) : option Z :=
  List.fold_left
    (fun acc c =>
       match acc, digit c with
       | Some a, Some d => Some (10 * a + d)
       | _, _ => None
       end)
    cs (Some 0).

Definition leap (y : Z) : bool :=
  ((y mod 4 =? 0) && negb (y mod 100 =? 0)) || (y mod 400 =? 0).

Definition days_in_month (y m : Z) : Z :=
  if m =? 2 then (if leap y then 29 else 28)
  else if (m =? 4) || (m =? 6) || (m =? 9) || (m =? 11) then 30
  else 31.

(** Date strings of the form [YYYY-MM-DD], the only form the script
    passes: the instant is the start of that day. *)
Definition parse_date (s : string) : option DateTime :=
  match list_ascii_of_string s with
  | [y1; y2; y3; y4; h1; m1; m2; h2; d1; d2] =>
      if Ascii.eqb h1 "-" && Ascii.eqb h2 "-" then
        match digits [y1; y2; y3; y4], digits [m1; m2], digits [d1; d2] with
        | Some y, Some m, Some d =>
            if (1 <=? m) && (m <=? 12) && (1 <=? d) && (d <=? days_in_month y m)
            then Some (mkDateTime y m d 0)
            else None
        | _, _, _ => None
        end
      else None
  | _ => None
  end.

(** [filterDate(start, end)] keeps an image whose [system:time_start] is
    at or after [start] and strictly before [end]: the start is inclusive
    and the end exclusive. *)
Definition in_range (a b t : DateTime) : bool :=
  negb (before t a) && before t b.

Definition in_window (start_ end_ : string) (t : DateTime) : option bool :=
  match parse_date start_, parse_date end_ with
  | Some a, Some b => Some (in_range a b t)
  | _, _ => None
  end.

(** An instant of the calendar day [y]-[m]-[d]. *)
Definition on_day (y m d : Z) (t : DateTime) : Prop :=
  dt_year t = y /\ dt_month t = m /\ dt_day t = d /\ 0 <= dt_ms t < 86400000.

(** ** Collections and composites, at one pixel location *)

Record Granule : Type := mkGranule
  { time_start : DateTime;
    intersects : ee.Geometry -> bool;
    pixel : Pixel }.

Definition QPixel : Type := list (string * option Q).

Definition band_names (gs : list Granule) : list string :=
  match gs with
  | [] => []
  | g :: _ => List.map fst (pixel g)
  end.

Definition band_value (band : string) (g : Granule) : list Z :=
  match select_band band (pixel g) with
  | (_, Some v) :: _ => [v]
  | _ => []
  end.

Definition band_values (band : string) (gs : list Granule) : list Z :=
  List.flat_map (band_value band) gs.

Definition total (vs : list Z) : Z := List.fold_right Z.add 0 vs.

(** Masked mean: only the images where the band is unmasked count. *)
Definition mean_of (vs : list Z) : option Q :=
  match vs with
  | [] => None
  | _ :: _ => Some (total vs # Pos.of_nat (List.length vs))
  end.

Definition mean_pixel (gs : list Granule) : QPixel :=
  List.map (fun band => (band, mean_of (band_values band gs))) (band_names gs).

Definition scale_pixel (k : Q) (p : QPixel) : QPixel :=
  List.map (fun bv => (fst bv, option_map (fun v => Qmult v k) (snd bv))) p.

Definition clip_pixel (keep : bool) (p : QPixel) : QPixel :=
  if keep then p else List.map (fun bv => (fst bv, @None Q)) p.

Definition set_pixel (g : Granule) (p : Pixel) : Granule :=
  mkGranule (time_start g) (intersects g) p.

Fixpoint map_images (body : ee.Image) (gs : list Granule) : option (list Granule) :=
  match gs with
  | [] => Some []
  | g :: rest =>
      match eval body (pixel g), map_images body rest with
      | Some p, Some rest' => Some (set_pixel g p :: rest')
      | _, _ => None
      end
  end.

Fixpoint select_images (band : string) (gs : list Granule) : option (list Granule) :=
  match gs with
  | [] => Some []
  | g :: rest =>
      match select_pixel band (pixel g), select_images band rest with
      | Some p, Some rest' => Some (set_pixel g p :: rest')
      | _, _ => None
      end
  end.

Section Platform.

(** The images of each catalogue collection, and whether the pixel
    location lies inside a geometry. *)
Variable catalog : string -> list Granule.
Variable inside : ee.Geometry -> bool.

Fixpoint images (c : ee.ImageCollection) : option (list Granule) :=
  match c with
  | ee.ImageCollection_id id => Some (catalog id)
  | ee.filterDate c' start_ end_ =>
      match images c', parse_date start_, parse_date end_ with
      | Some gs, Some a, Some b =>
          Some (List.filter (fun g => in_range a b (time_start g)) gs)
      | _, _, _ => None
      end
  | ee.filterBounds c' g =>
      option_map (List.filter (fun x => intersects x g)) (images c')
  | ee.map c' body =>
      match images c' with
      | Some gs => map_images body gs
      | None => None
      end
  | ee.select c' band =>
      match images c' with
      | Some gs => select_images band gs
      | None => None
      end
  end.

Fixpoint composite (e : ee.Image) : option QPixel :=
  match e with
  | ee.mean c => option_map mean_pixel (images c)
  | ee.multiply i k => option_map (scale_pixel k) (composite i)
  | ee.clip i g => option_map (clip_pixel (inside g)) (composite i)
  | _ => None
  end.

End Platform.

(** ** Sub-expressions of an expression *)

Fixpoint subimages (e : ee.Image) : list ee.Image :=
  e ::
  match e with
  | ee.arg => []
  | ee.Image_select i _ => subimages i
  | ee.bitwiseAnd i _ => subimages i
  | ee.rightShift i _ => subimages i
  | ee.eq i _ => subimages i
  | ee.And a b => subimages a ++ subimages b
  | ee.updateMask i m => subimages i ++ subimages m
  | ee.mean c => subimages_in c
  | ee.multiply i _ => subimages i
  | ee.clip i _ => subimages i
  end
with subimages_in (c : ee.ImageCollection) : list ee.Image :=
  match c with
  | ee.ImageCollection_id _ => []
  | ee.filterDate c' _ _ => subimages_in c'
  | ee.filterBounds c' _ => subimages_in c'
  | ee.map c' body => subimages_in c' ++ subimages body
  | ee.select c' _ => subimages_in c'
  end.

Fixpoint subcollections (e : ee.Image) : list ee.ImageCollection :=
  match e with
  | ee.arg => []
  | ee.Image_select i _ => subcollections i
  | ee.bitwiseAnd i _ => subcollections i
  | ee.rightShift i _ => subcollections i
  | ee.eq i _ => subcollections i
  | ee.And a b => subcollections a ++ subcollections b
  | ee.updateMask i m => subcollections i ++ subcollections m
  | ee.mean c => subcollections_in c
  | ee.multiply i _ => subcollections i
  | ee.clip i _ => subcollections i
  end
with subcollections_in (c : ee.ImageCollection) : list ee.ImageCollection :=
  c ::
  match c with
  | ee.ImageCollection_id _ => []
  | ee.filterDate c' _ _ => subcollections_in c'
  | ee.filterBounds c' _ => subcollections_in c'
  | ee.map c' body => subcollections_in c' ++ subcollections body
  | ee.select c' _ => subcollections_in c'
  end.

Definition is_multiply (e : ee.Image) : bool :=
  match e with ee.multiply _ _ => true | _ => false end.

Definition is_updateMask (e : ee.Image) : bool :=
  match e with ee.updateMask _ _ => true | _ => false end.

(** The functions mapped over a collection on the way from the catalogue
    to this point, outermost first. *)
Fixpoint mapped (c : ee.ImageCollection) : list ee.Image :=
  match c with
  | ee.ImageCollection_id _ => []
  | ee.filterDate c' _ _ => mapped c'
  | ee.filterBounds c' _ => mapped c'
  | ee.map c' body => body :: mapped c'
  | ee.select c' _ => mapped c'
  end.

(** Geometries an expression filters by, and geometries it clips to. *)
Definition bounds_of (c : ee.ImageCollection) : list ee.Geometry :=
  match c with ee.filterBounds _ g => [g] | _ => [] end.

Definition clip_of (e : ee.Image) : list ee.Geometry :=
  match e with ee.clip _ g => [g] | _ => [] end.

Definition filter_geometries (e : ee.Image) : list ee.Geometry :=
  List.flat_map bounds_of (subcollections e).

Definition clip_geometries (e : ee.Image) : list ee.Geometry :=
  List.flat_map clip_of (subimages e).

(** Date windows an expression filters by. *)
Definition dates_of (c : ee.ImageCollection) : list (string * string) :=
  match c with ee.filterDate _ s e => [(s, e)] | _ => [] end.

Definition date_windows (e : ee.Image) : list (string * string) :=
  List.flat_map dates_of (subcollections e).

(** ** The script *)

(** *** Study area and parameters *)

Definition usa : ee.Geometry :=
  ee.geometry
    (ee.filter (ee.FeatureCollection_id "USDOS/LSIB_SIMPLE/2017")
               (ee.Filter_eq "country_na" "United States")).
Definition collection_id : string := "MODIS/061/MCD19A2_GRANULES".
Definition aod_band : string := "Optical_Depth_055".
Definition scale_factor : Q := 1 # 1000.
Definition export_scale : Z := 1000.

(** *** What one iteration builds *)

Definition start_date (year : Z) : string := str year ++ "-01-01".
Definition end_date (year : Z) : string := str year ++ "-12-31".

Definition annual_mean_aod (year : Z) : ee.Image :=
  ee.multiply
    (ee.mean
       (ee.select
          (ee.map
             (ee.filterBounds
                (ee.filterDate (ee.ImageCollection_id collection_id)
                               (start_date year) (end_date year))
                usa)
             (maskAOD ee.arg))
          aod_band))
    scale_factor.

(** Keyword arguments of [ee.batch.Export.image.toDrive]. *)
Record Task : Type := toDrive
  { image : ee.Image;
    description : string;
    folder : string;
    fileNamePrefix : string;
    scale : Z;
    crs : string;
    maxPixels : Z }.

Definition task (year : Z) : Task :=
  {| image := ee.clip (annual_mean_aod year) usa;
     description := "Annual_Mean_AOD_" ++ str year ++ "_USA";
     folder := "GEE_Exports";
     fileNamePrefix := "AOD_" ++ str year ++ "_USA";
     scale := export_scale;
     crs := "EPSG:4326";
     maxPixels := 10 ^ 13 |}.

(** *** Control flow: a log of external calls, and exceptions *)

Inductive exn : Type :=
| Exception (msg : string)        (* instances of [Exception] *)
| BaseException (msg : string).   (* the others, e.g. [KeyboardInterrupt] *)

Inductive event : Type :=
| Print (line : string)
| Initialize
| Authenticate
| Start (t : Task).

(** What the outside answers: the outcome of the [n]-th call of
    [ee.Initialize] (counting from 0), of [ee.Authenticate] and of starting
    a task ([None]: the call returns), and the text of the elapsed time
    printed for a year. *)
Record World : Type := mkWorld
  { Initialize_raises : nat -> option exn;
    Authenticate_raises : option exn;
    start_raises : Task -> option exn;
    elapsed : Z -> string }.

Inductive outcome (A : Type) : Type :=
| Return (a : A)
| Raise (e : exn).
Arguments Return {A} a.
Arguments Raise {A} e.

Definition M (A : Type) : Type := list event -> list event * outcome A.

Definition ret {A} (a : A) : M A := fun log => (log, Return a).

Definition bind {A B} (m : M A) (k : A -> M B) : M B :=
  fun log =>
    match m log with
    | (log', Return a) => k a log'
    | (log', Raise e) => (log', Raise e)
    end.

Notation "m ;; k" := (bind m (fun _ => k))
  (at level 61, right associativity).

(** [try: body except Exception as e: handler] *)
Definition try_except {A} (body : M A) (handler : exn -> M A) : M A :=
  fun log =>
    match body log with
    | (log', Raise (Exception msg)) => handler (Exception msg) log'
    | r => r
    end.

Definition call (ev : event) (raises : option exn) : M unit :=
  fun log =>
    ((log ++ [ev])%list,
     match raises with
     | None => Return tt
     | Some e => Raise e
     end).

Definition is_Initialize (ev : event) : bool :=
  match ev with Initialize => true | _ => false end.

Definition is_Authenticate (ev : event) : bool :=
  match ev with Authenticate => true | _ => false end.

Definition calls (p : event -> bool) (log : list event) : nat :=
  List.length (List.filter p log).

Fixpoint started (log : list event) : list Task :=
  match log with
  | [] => []
  | Start t :: rest => t :: started rest
  | _ :: rest => started rest
  end.

Fixpoint printed (log : list event) : list string :=
  match log with
  | [] => []
  | Print s :: rest => s :: printed rest
  | _ :: rest => printed rest
  end.

Fixpoint for_each {A} (xs : list A) (body : A -> M unit) : M unit :=
  match xs with
  | [] => ret tt
  | x :: rest => body x ;; for_each rest body
  end.

(** Python's [range(a, b)]. *)
Definition range (a b : Z) : list Z :=
  List.map (fun i => a + Z.of_nat i) (List.seq 0 (Z.to_nat (b - a))).

Definition newline : string := String (ascii_of_nat 10) EmptyString.

Section Script.

Variable w : World.

Definition print (line : string) : M unit := call (Print line) None.

Definition ee_Initialize : M unit :=
  fun log => call Initialize (Initialize_raises w (calls is_Initialize log)) log.

Definition ee_Authenticate : M unit :=
  call Authenticate (Authenticate_raises w).

Definition task_start (t : Task) : M unit :=
  call (Start t) (start_raises w t).

(** 1. Authenticate and initialize *)
Definition initialize_session : M unit :=
  try_except ee_Initialize
             (fun e => ee_Authenticate ;; ee_Initialize).

(** 4. Body of the loop over the years *)
Definition submit_year (year : Z) : M unit :=
  print ("Submitting export task for year: " ++ str year ++ "...") ;;
  task_start (task year) ;;
  print ("  - Task for year " ++ str year ++ " submitted in "
         ++ elapsed w year ++ " seconds.").

Definition final_message : M unit :=
  print (newline ++ "--- All export tasks have been submitted. ---") ;;
  print "Please go to the Google Earth Engine Code Editor website (code.earthengine.google.com)" ;;
  print "and click 'RUN' on the tasks in the 'Tasks' tab on the right-hand side.".

Definition script (start_year end_year : Z) : M unit :=
  print "--- Script Start: Exporting yearly AOD data with verified logic ---" ;;
  initialize_session ;;
  for_each (range start_year (end_year + 1)) submit_year ;;
  final_message.

(** The script with its own constants. *)
Definition main : M unit := script 2015 2024.

End Script.

(** ** Notions the statements use *)

(** The run of the script from an empty log. *)
Definition run (w : World) (start_year end_year : Z) : list event * outcome unit :=
  script w start_year end_year [].

(** Initialization succeeds: at once, or through the fallback. *)
Definition session_ok (w : World) : bool :=
  match Initialize_raises w 0 with
  | None => true
  | Some (Exception _) =>
      match Authenticate_raises w, Initialize_raises w 1 with
      | None, None => true
      | _, _ => false
      end
  | Some (BaseException _) => false
  end.

(** [sub] occurs in [s]. *)
Definition contains (s sub : string) : Prop :=
  exists pre post, s = pre ++ sub ++ post.

(** The collections a [mean] of the expression aggregates. *)
Definition mean_input (e : ee.Image) : list ee.ImageCollection :=
  match e with ee.mean c => [c] | _ => [] end.

Definition mean_inputs (e : ee.Image) : list ee.ImageCollection :=
  List.flat_map mean_input (subimages e).

(** The window check of one year, as a boolean. *)
Definition window_parses (year : Z) : bool :=
  match parse_date (start_date year), parse_date (end_date year) with
  | Some a, Some b =>
      (dt_year a =? year) && (dt_month a =? 1) && (dt_day a =? 1) && (dt_ms a =? 0)
      && (dt_year b =? year) && (dt_month b =? 12) && (dt_day b =? 31) && (dt_ms b =? 0)
  | _, _ => false
  end.

(** What [maskAOD] decides at a pixel that has the quality band: a pixel
    whose quality value is masked is masked. *)
Definition decide_mask (p : Pixel) : bool :=
  match mask_decision p with
  | Some b => b
  | None => false
  end.

(** The events of one complete iteration, of the initialization block
    and of the closing messages. *)
Definition year_log (w : World) (year : Z) : list event :=
  [ Print ("Submitting export task for year: " ++ str year ++ "...");
    Start (task year);
    Print ("  - Task for year " ++ str year ++ " submitted in "
           ++ elapsed w year ++ " seconds.") ].

Definition start_message : string :=
  "--- Script Start: Exporting yearly AOD data with verified logic ---".

Definition final_log : list event :=
  [ Print (newline ++ "--- All export tasks have been submitted. ---");
    Print "Please go to the Google Earth Engine Code Editor website (code.earthengine.google.com)";
    Print "and click 'RUN' on the tasks in the 'Tasks' tab on the right-hand side." ].

Definition session_log (w : World) : list event :=
  match Initialize_raises w 0 with
  | Some (Exception _) =>
      match Authenticate_raises w with
      | None => [Initialize; Authenticate; Initialize]
      | Some _ => [Initialize; Authenticate]
      end
  | _ => [Initialize]
  end.

Definition raised (r : option exn) : outcome unit :=
  match r with
  | None => Return tt
  | Some e => Raise e
  end.

Definition session_result (w : World) : outcome unit :=
  match Initialize_raises w 0 with
  | Some (Exception _) =>
      match Authenticate_raises w with
      | None => raised (Initialize_raises w 1)
      | Some e => Raise e
      end
  | r => raised r
  end.

(** Sample worlds: one where every call returns, and one where the
    cached session is invalid and initialization fails again after
    re-authentication. *)
Definition world_ok : World :=
  mkWorld (fun _ => None) None (fun _ => None) (fun _ => "0.42").

Definition world_no_session : World :=
  mkWorld (fun _ => Some (Exception "Please authorize access to your Earth Engine account"))
          None (fun _ => None) (fun _ => "0.42").

(** What the pipeline of a year makes of one catalogue image before
    the mean: the image masked by [maskAOD], reduced to the AOD band. *)
Definition masked_band (g : Granule) : Granule :=
  set_pixel g (select_band aod_band (apply_mask (decide_mask (pixel g)) (pixel g))).

(** A sample catalogue at one land pixel of the study area: two clear,
    best-quality images, of December 30 and December 31, 2015. *)
Definition sample_catalog (id : string) : list Granule :=
  if String.eqb id collection_id then
    [ mkGranule (mkDateTime 2015 12 30 64800000) (fun _ => true)
                [("Optical_Depth_055", Some 100); ("AOD_QA", Some 1)];
      mkGranule (mkDateTime 2015 12 31 64800000) (fun _ => true)
                [("Optical_Depth_055", Some 300); ("AOD_QA", Some 1)] ]
  else [].

(** The bits of the quality value that [maskAOD] reads: bits 0-4 and
    8-11, that is [0xF1F]. *)
Definition qa_bits : Z := 3871.

(** A well-formed instant: a day of the calendar and a time of that day. *)
Definition valid_instant (t : DateTime) : Prop :=
  1 <= dt_month t <= 12
  /\ 1 <= dt_day t <= days_in_month (dt_year t) (dt_month t)
  /\ 0 <= dt_ms t < 86400000.

(** The catalogue images a year's pipeline keeps before masking, and what
    each of them contributes to the mean of the AOD band. *)
Definition selected (catalog : string -> list Granule) (year : Z) : list Granule :=
  List.filter (fun g => intersects g usa)
    (List.filter
       (fun g => in_range (mkDateTime year 1 1 0) (mkDateTime year 12 31 0)
                          (time_start g))
       (catalog collection_id)).

Definition contribution (g : Granule) : list Z :=
  if decide_mask (pixel g) then band_value aod_band g else [].

(** The two lines printed for a year. *)
Definition year_lines (w : World) (year : Z) : list string :=
  printed (year_log w year).

(** A sample world where starting the task of 2021 fails. *)
Definition world_start_fails : World :=
  mkWorld (fun _ => None) None
          (fun t => if String.eqb (fileNamePrefix t) "AOD_2021_USA"
                    then Some (Exception "Too many tasks already in the queue")
                    else None)
          (fun _ => "0.42").

(** ** The boundary as an object

    The run once more, now also recording when a geometry object is built,
    when the name [usa] is bound, and every read of the name by the loop
    body.  A reference is the index of an object among those built. *)

Inductive site : Type :=
| filterBounds_argument   (* [.filterBounds(usa)] *)
| clip_argument.          (* [.clip(usa)] *)

Inductive step : Type :=
| External (ev : event)
| NewGeometry (ref : nat) (g : ee.Geometry)
| BindUsa (ref : nat)
| ReadUsa (year : Z) (s : site) (ref : nat).

Record Memory : Type := mkMemory
  { objects : list ee.Geometry;
    usa_ref : option nat;
    trace : list step }.

Definition external_event (st : step) : list event :=
  match st with
  | External ev => [ev]
  | _ => []
  end.

Definition external (tr : list step) : list event :=
  List.flat_map external_event tr.

Definition add_steps (m : Memory) (l : list step) : Memory :=
  mkMemory (objects m) (usa_ref m) (trace m ++ l).

Definition R (A : Type) : Type := Memory -> Memory * outcome A.

Definition ret_r {A} (a : A) : R A := fun m => (m, Return a).

Definition bind_r {A B} (c : R A) (k : A -> R B) : R B :=
  fun m =>
    match c m with
    | (m', Return a) => k a m'
    | (m', Raise e) => (m', Raise e)
    end.

Notation "c ;;; k" := (bind_r c (fun _ => k))
  (at level 61, right associativity).

Definition try_except_r {A} (body : R A) (handler : exn -> R A) : R A :=
  fun m =>
    match body m with
    | (m', Raise (Exception msg)) => handler (Exception msg) m'
    | r => r
    end.

Definition call_r (ev : event) (raises : option exn) : R unit :=
  fun m => (add_steps m [External ev], raised raises).

(** Building an object gives a fresh reference. *)
Definition new_geometry (g : ee.Geometry) : R nat :=
  fun m =>
    (mkMemory (objects m ++ [g]) (usa_ref m)
              (trace m ++ [NewGeometry (List.length (objects m)) g]),
     Return (List.length (objects m))).

Definition bind_usa (ref : nat) : R unit :=
  fun m => (mkMemory (objects m) (Some ref) (trace m ++ [BindUsa ref]), Return tt).

(** Reading the name: a [NameError] where it is not bound. *)
Definition read_usa (year : Z) (s : site) : R ee.Geometry :=
  fun m =>
    match usa_ref m with
    | Some ref =>
        match List.nth_error (objects m) ref with
        | Some g => (add_steps m [ReadUsa year s ref], Return g)
        | None => (m, Raise (Exception "NameError: name 'usa' is not defined"))
        end
    | None => (m, Raise (Exception "NameError: name 'usa' is not defined"))
    end.

Fixpoint for_each_r {A} (xs : list A) (body : A -> R unit) : R unit :=
  match xs with
  | [] => ret_r tt
  | x :: rest => body x ;;; for_each_r rest body
  end.

(** The expression and the task of a year, from the geometries read. *)
Definition annual_mean_aod_with (boundary : ee.Geometry) (year : Z) : ee.Image :=
  ee.multiply
    (ee.mean
       (ee.select
          (ee.map
             (ee.filterBounds
                (ee.filterDate (ee.ImageCollection_id collection_id)
                               (start_date year) (end_date year))
                boundary)
             (maskAOD ee.arg))
          aod_band))
    scale_factor.

Definition task_with (filter_boundary clip_boundary : ee.Geometry) (year : Z) : Task :=
  {| image := ee.clip (annual_mean_aod_with filter_boundary year) clip_boundary;
     description := "Annual_Mean_AOD_" ++ str year ++ "_USA";
     folder := "GEE_Exports";
     fileNamePrefix := "AOD_" ++ str year ++ "_USA";
     scale := export_scale;
     crs := "EPSG:4326";
     maxPixels := 10 ^ 13 |}.

Section ScriptWithMemory.

Variable w : World.

Definition print_r (line : string) : R unit := call_r (Print line) None.

Definition ee_Initialize_r : R unit :=
  fun m =>
    call_r Initialize
           (Initialize_raises w (calls is_Initialize (external (trace m)))) m.

Definition ee_Authenticate_r : R unit :=
  call_r Authenticate (Authenticate_raises w).

Definition task_start_r (t : Task) : R unit :=
  call_r (Start t) (start_raises w t).

(** 1. Authenticate and initialize *)
Definition initialize_session_r : R unit :=
  try_except_r ee_Initialize_r
               (fun e => ee_Authenticate_r ;;; ee_Initialize_r).

(** 2. [usa = ee.FeatureCollection(...).filter(...).geometry()] *)
Definition define_usa : R unit :=
  bind_r (new_geometry usa) bind_usa.

(** 4. Body of the loop over the years *)
Definition submit_year_r (year : Z) : R unit :=
  print_r ("Submitting export task for year: " ++ str year ++ "...") ;;;
  bind_r (read_usa year filterBounds_argument) (fun filter_boundary =>
  bind_r (read_usa year clip_argument) (fun clip_boundary =>
  task_start_r (task_with filter_boundary clip_boundary year) ;;;
  print_r ("  - Task for year " ++ str year ++ " submitted in "
           ++ elapsed w year ++ " seconds."))).

Definition final_message_r : R unit :=
  print_r (newline ++ "--- All export tasks have been submitted. ---") ;;;
  print_r "Please go to the Google Earth Engine Code Editor website (code.earthengine.google.com)" ;;;
  print_r "and click 'RUN' on the tasks in the 'Tasks' tab on the right-hand side.".

Definition script_r (start_year end_year : Z) : R unit :=
  print_r "--- Script Start: Exporting yearly AOD data with verified logic ---" ;;;
  initialize_session_r ;;;
  define_usa ;;;
  for_each_r (range start_year (end_year + 1)) submit_year_r ;;;
  final_message_r.

End ScriptWithMemory.

Definition run_r (w : World) (start_year end_year : Z) : Memory * outcome unit :=
  script_r w start_year end_year (mkMemory [] None []).

(** The steps of one complete iteration. *)
Definition year_steps (w : World) (year : Z) : list step :=
  [ External (Print ("Submitting export task for year: " ++ str year ++ "..."));
    ReadUsa year filterBounds_argument 0;
    ReadUsa year clip_argument 0;
    External (Start (task year));
    External (Print ("  - Task for year " ++ str year ++ " submitted in "
                     ++ elapsed w year ++ " seconds.")) ].

(** A step that leaves the boundary alone: an external event, or a read
    of [usa] that finds the first object; no object is built and the name
    is not bound again. *)
Definition keeps_boundary (st : step) : Prop :=
  match st with
  | External _ => True
  | ReadUsa _ _ ref => ref = 0%nat
  | NewGeometry _ _ => False
  | BindUsa _ => False
  end.

(** * Properties *)

(** ** The mask predicate *)

Lemma pixel_mask_unfold (q : Z) :
  pixel_mask q =
  nonzero (truth (nonzero (truth (nonzero (truth (Z.land q 7 =? 1))
                                  && nonzero (truth (Z.land (Z.shiftr q 3) 3 =? 0))))
                  && nonzero (truth (Z.land (Z.shiftr q 8) 15 =? 0)))).
Proof. reflexivity. Qed.

Lemma nonzero_truth (b : bool) : nonzero (truth b) = b.
Proof. destruct b; reflexivity. Qed.

Lemma pixel_mask_bits (q : Z) :
  pixel_mask q =
  (Z.land q 7 =? 1) && (Z.land (Z.shiftr q 3) 3 =? 0)
  && (Z.land (Z.shiftr q 8) 15 =? 0).
Proof. rewrite pixel_mask_unfold, !nonzero_truth. reflexivity. Qed.

Lemma land_shiftr_lor_8 (q : Z) :
  Z.land (Z.shiftr (Z.lor q 8) 3) 3 <> 0.
Proof.
  intro H.
  assert (B : Z.testbit (Z.land (Z.shiftr (Z.lor q 8) 3) 3) 0 = false)
    by (rewrite H; apply Z.bits_0).
  rewrite Z.land_spec, Z.shiftr_spec, Z.lor_spec in B by lia.
  replace (Z.testbit 8 (0 + 3)) with true in B by reflexivity.
  replace (Z.testbit 3 0) with true in B by reflexivity.
  rewrite orb_true_r in B. discriminate.
Qed.

(** A quality value with bit 3 (the low land/water bit) set is masked. *)
Lemma bit_3_set_is_masked (q : Z) :
  Z.testbit q 3 = true -> pixel_mask q = false.
Proof.
  intro B. rewrite pixel_mask_bits.
  assert (E : Z.lor q 8 = q).
  { apply Z.bits_inj'. intros n N. rewrite Z.lor_spec.
    change 8 with (2 ^ 3). rewrite Z.pow2_bits_eqb by lia.
    destruct (Z.eqb_spec 3 n) as [<-|_].
    - rewrite B. reflexivity.
    - apply orb_false_r. }
  destruct (Z.eqb_spec (Z.land (Z.shiftr q 3) 3) 0) as [H|H].
  - rewrite <- E in H. destruct (land_shiftr_lor_8 q H).
  - rewrite andb_false_r. reflexivity.
Qed.

(** C1. For every quality value [q] the mask predicate of [maskAOD] is true
    exactly when [(q & 7) = 1], [((q >> 3) & 3) = 0] and
    [((q >> 8) & 15) = 0], and false otherwise; it is true at [q = 1],
    false at [q = 0], and false at every [q] with bit 3 set. *)
Theorem maskAOD_true_iff :
  forall q : Z,
    (pixel_mask q = true <->
       Z.land q 7 = 1 /\ Z.land (Z.shiftr q 3) 3 = 0
       /\ Z.land (Z.shiftr q 8) 15 = 0)
    /\ (pixel_mask q = false <->
          ~ (Z.land q 7 = 1 /\ Z.land (Z.shiftr q 3) 3 = 0
             /\ Z.land (Z.shiftr q 8) 15 = 0))
    /\ pixel_mask 1 = true
    /\ pixel_mask 0 = false
    /\ pixel_mask (Z.lor q 8) = false.
Proof.
  intro q.
  assert (T : pixel_mask q = true <->
              Z.land q 7 = 1 /\ Z.land (Z.shiftr q 3) 3 = 0
              /\ Z.land (Z.shiftr q 8) 15 = 0).
  { rewrite pixel_mask_bits, !andb_true_iff, !Z.eqb_eq. tauto. }
  split; [exact T|].
  split.
  - rewrite <- T. destruct (pixel_mask q); split; congruence.
  - repeat split; try reflexivity.
    rewrite pixel_mask_bits.
    destruct (Z.eqb_spec (Z.land (Z.shiftr (Z.lor q 8) 3) 3) 0) as [E|E].
    + destruct (land_shiftr_lor_8 q E).
    + rewrite andb_false_r. reflexivity.
Qed.

Lemma mask_decision_qa (p : Pixel) (q : Z) :
  qa_value p q -> mask_decision p = Some (pixel_mask q).
Proof.
  unfold qa_value, mask_decision, maskAOD. intro H.
  cbn [mask_of eval option_map]. unfold select_pixel.
  rewrite H. reflexivity.
Qed.

Lemma qa_value_has_band (p : Pixel) (q : Z) :
  qa_value p q -> has_band "AOD_QA" p = true.
Proof. unfold qa_value, has_band. intros ->. reflexivity. Qed.

Lemma eval_maskAOD (p : Pixel) :
  eval (maskAOD ee.arg) p
  = if has_band "AOD_QA" p then Some (apply_mask (decide_mask p) p) else None.
Proof.
  unfold decide_mask, mask_decision, maskAOD, has_band.
  cbn [mask_of eval option_map]. unfold select_pixel.
  destruct (select_band "AOD_QA" p); reflexivity.
Qed.

Lemma mapped_annual_mean (year : Z) :
  List.flat_map mapped (mean_inputs (image (task year))) = [maskAOD ee.arg].
Proof. reflexivity. Qed.

(** C9. The mask predicate is a function of the packed quality value
    alone: two pixels with the same quality value, whatever their other
    bands, get the same decision, the one [pixel_mask] gives, and that
    decision is all [maskAOD] uses of the pixel; the function mapped over
    the images is the same expression in every year. *)
Theorem maskAOD_pure :
  forall (p1 p2 : Pixel) (q : Z) (year1 year2 : Z),
    qa_value p1 q -> qa_value p2 q ->
    mask_decision p1 = mask_decision p2
    /\ mask_decision p1 = Some (pixel_mask q)
    /\ eval (maskAOD ee.arg) p1 = Some (apply_mask (pixel_mask q) p1)
    /\ eval (maskAOD ee.arg) p2 = Some (apply_mask (pixel_mask q) p2)
    /\ List.flat_map mapped (mean_inputs (image (task year1)))
       = List.flat_map mapped (mean_inputs (image (task year2))).
Proof.
  intros p1 p2 q year1 year2 H1 H2.
  pose proof (mask_decision_qa p1 q H1) as D1.
  pose proof (mask_decision_qa p2 q H2) as D2.
  split; [|split; [|split; [|split]]].
  - congruence.
  - exact D1.
  - rewrite eval_maskAOD, (qa_value_has_band p1 q H1).
    unfold decide_mask. rewrite D1. reflexivity.
  - rewrite eval_maskAOD, (qa_value_has_band p2 q H2).
    unfold decide_mask. rewrite D2. reflexivity.
  - rewrite !mapped_annual_mean. reflexivity.
Qed.

Lemma maskAOD_pure_witness :
  let p1 := [("Optical_Depth_055", Some 120); ("AOD_QA", Some 1)] in
  let p2 := [("AOD_QA", Some 1); ("Optical_Depth_047", None)] in
  mask_decision p1 = mask_decision p2
  /\ mask_decision p1 = Some (pixel_mask 1)
  /\ eval (maskAOD ee.arg) p1 = Some (apply_mask (pixel_mask 1) p1)
  /\ eval (maskAOD ee.arg) p2 = Some (apply_mask (pixel_mask 1) p2)
  /\ List.flat_map mapped (mean_inputs (image (task 2015)))
     = List.flat_map mapped (mean_inputs (image (task 2024))).
Proof.
  apply (maskAOD_pure _ _ 1 2015 2024); reflexivity.
Defined.

(** ** The date window *)

Lemma range_In (a b y : Z) : a <= y < b -> In y (range a b).
Proof.
  intro H. unfold range. apply in_map_iff.
  exists (Z.to_nat (y - a)). split; [lia|].
  apply in_seq. lia.
Qed.

Lemma In_range (a b y : Z) : In y (range a b) -> a <= y < b.
Proof.
  unfold range. intro H. apply in_map_iff in H.
  destruct H as [i [E H]]. apply in_seq in H. lia.
Qed.

Lemma window_parses_four_digits (year : Z) :
  1000 <= year <= 9999 -> window_parses year = true.
Proof.
  intro H.
  assert (A : forallb window_parses (range 1000 10000) = true)
    by (vm_compute; reflexivity).
  rewrite forallb_forall in A. apply A, range_In. lia.
Qed.

Lemma parse_window (year : Z) :
  1000 <= year <= 9999 ->
  parse_date (start_date year) = Some (mkDateTime year 1 1 0)
  /\ parse_date (end_date year) = Some (mkDateTime year 12 31 0).
Proof.
  intro H. apply window_parses_four_digits in H.
  unfold window_parses in H.
  destruct (parse_date (start_date year)) as [[ya ma da sa]|]; [|discriminate].
  destruct (parse_date (end_date year)) as [[yb mb db sb]|]; [|discriminate].
  cbn in H. rewrite !andb_true_iff, !Z.eqb_eq in H.
  destruct H as [[[[[[[? ?] ?] ?] ?] ?] ?] ?]. subst. split; reflexivity.
Qed.

Lemma in_window_year (year : Z) (t : DateTime) :
  1000 <= year <= 9999 ->
  in_window (start_date year) (end_date year) t
  = Some (in_range (mkDateTime year 1 1 0) (mkDateTime year 12 31 0) t).
Proof.
  intro H. destruct (parse_window year H) as [A B].
  unfold in_window. rewrite A, B. reflexivity.
Qed.

Ltac by_comparisons :=
  unfold in_range, before, dt_compare; cbn [dt_year dt_month dt_day dt_ms];
  repeat match goal with
         | |- context [?a ?= ?b] =>
             destruct (Z.compare_spec a b); try lia; cbn [negb andb]
         end;
  try reflexivity.

(** Every instant of the year up to the end of December 30 is inside. *)
Lemma window_keeps_through_december_30 (year : Z) (t : DateTime) :
  1000 <= year <= 9999 ->
  dt_year t = year -> 1 <= dt_month t <= 12 -> 1 <= dt_day t ->
  dt_month t < 12 \/ dt_day t <= 30 -> 0 <= dt_ms t ->
  in_window (start_date year) (end_date year) t = Some true.
Proof.
  intros H Y Mo D L S. rewrite in_window_year by exact H.
  f_equal. destruct t as [y m d ms]. cbn in *. by_comparisons.
Qed.

(** No instant of another year is inside. *)
Lemma window_excludes_other_years (year : Z) (t : DateTime) :
  1000 <= year <= 9999 -> dt_year t <> year ->
  in_window (start_date year) (end_date year) t = Some false.
Proof.
  intros H Y. rewrite in_window_year by exact H.
  f_equal. destruct t as [y m d ms]. cbn in *. by_comparisons.
Qed.

(** C2. The window each year's collection is filtered by is
    [(Y-01-01, Y-12-31)], and the date filter's end is exclusive: an image
    taken on December 31 of year [Y] is outside the window. *)
Theorem december_31_outside_window :
  forall (year : Z) (t : DateTime),
    1000 <= year <= 9999 -> on_day year 12 31 t ->
    date_windows (image (task year)) = [(start_date year, end_date year)]
    /\ in_window (start_date year) (end_date year) t = Some false.
Proof.
  intros year t H [Y [Mo [D S]]]. split; [reflexivity|].
  rewrite in_window_year by exact H.
  f_equal. destruct t as [y m d ms]. cbn in *. by_comparisons.
Qed.

Lemma december_31_outside_window_witness :
  date_windows (image (task 2015)) = [("2015-01-01", "2015-12-31")]
  /\ in_window "2015-01-01" "2015-12-31" (mkDateTime 2015 12 31 43200000)
     = Some false.
Proof.
  apply (december_31_outside_window 2015 (mkDateTime 2015 12 31 43200000)).
  - lia.
  - unfold on_day; cbn; lia.
Defined.

(** ** Runs of the script *)

Lemma started_app (l l' : list event) :
  started (l ++ l') = (started l ++ started l')%list.
Proof.
  induction l as [|ev l IH]; [reflexivity|].
  destruct ev; cbn; rewrite IH; reflexivity.
Qed.

Lemma calls_app (p : event -> bool) (l l' : list event) :
  calls p (l ++ l') = (calls p l + calls p l')%nat.
Proof. unfold calls. rewrite filter_app, length_app. reflexivity. Qed.

Lemma submit_year_run (w : World) (year : Z) (log : list event) :
  submit_year w year log =
  match start_raises w (task year) with
  | None => ((log ++ year_log w year)%list, Return tt)
  | Some e =>
      ((log ++ [Print ("Submitting export task for year: " ++ str year ++ "...");
                Start (task year)])%list,
       Raise e)
  end.
Proof.
  unfold submit_year, bind, print, task_start, call, year_log.
  destruct (start_raises w (task year)); rewrite <- !app_assoc; reflexivity.
Qed.

Lemma final_message_run (log : list event) :
  final_message log = ((log ++ final_log)%list, Return tt).
Proof.
  unfold final_message, bind, print, call, final_log.
  rewrite <- !app_assoc. reflexivity.
Qed.

Lemma for_each_cons {A} (x : A) (xs : list A) (body : A -> M unit)
      (log : list event) :
  for_each (x :: xs) body log =
  match body x log with
  | (log', Return _) => for_each xs body log'
  | (log', Raise e) => (log', Raise e)
  end.
Proof. reflexivity. Qed.

(** When no start raises, the loop runs every iteration to its end. *)
Lemma for_each_all_start (w : World) (ys : list Z) :
  (forall y, In y ys -> start_raises w (task y) = None) ->
  forall log,
    for_each ys (submit_year w) log
    = ((log ++ List.flat_map (year_log w) ys)%list, Return tt).
Proof.
  induction ys as [|y ys IH]; intros H log.
  - cbn. rewrite app_nil_r. reflexivity.
  - rewrite for_each_cons, submit_year_run, (H y) by (left; reflexivity).
    rewrite IH by (intros; apply H; right; assumption).
    cbn [List.flat_map]. rewrite <- app_assoc. reflexivity.
Qed.

(** Whatever the outside answers, the loop only starts tasks of its
    years, and calls neither [ee.Initialize] nor [ee.Authenticate]. *)
Lemma for_each_started (w : World) (ys : list Z) :
  forall log t,
    In t (started (fst (for_each ys (submit_year w) log))) ->
    In t (started log) \/ exists y, In y ys /\ t = task y.
Proof.
  induction ys as [|y ys IH]; intros log t H.
  - left. exact H.
  - rewrite for_each_cons, submit_year_run in H.
    destruct (start_raises w (task y)).
    + cbn [fst] in H. rewrite started_app in H. apply in_app_or in H.
      destruct H as [H|H]; [left; exact H|].
      cbn in H. destruct H as [H|[]].
      right. exists y. split; [left; reflexivity|symmetry; exact H].
    + apply IH in H. destruct H as [H|[y' [I E]]].
      * rewrite started_app in H. apply in_app_or in H.
        destruct H as [H|H]; [left; exact H|].
        cbn in H. destruct H as [H|[]].
        right. exists y. split; [left; reflexivity|symmetry; exact H].
      * right. exists y'. split; [right; exact I|exact E].
Qed.

Lemma for_each_calls (w : World) (p : event -> bool) (ys : list Z) :
  (forall line, p (Print line) = false) -> (forall t, p (Start t) = false) ->
  forall log,
    calls p (fst (for_each ys (submit_year w) log)) = calls p log.
Proof.
  intros P S.
  induction ys as [|y ys IH]; intro log; [reflexivity|].
  rewrite for_each_cons, submit_year_run.
  destruct (start_raises w (task y)).
  - cbn [fst]. rewrite calls_app. unfold calls at 2. cbn.
    rewrite !P, S. cbn. lia.
  - rewrite IH, calls_app. unfold year_log, calls at 2. cbn.
    rewrite !P, S. cbn. lia.
Qed.

Lemma initialize_session_run (w : World) :
  initialize_session w [Print start_message]
  = (Print start_message :: session_log w, session_result w).
Proof.
  unfold initialize_session, try_except, ee_Initialize, ee_Authenticate,
    bind, call, session_log, session_result, raised.
  cbn [calls List.filter is_Initialize List.length].
  destruct (Initialize_raises w 0) as [[m|m]|]; try reflexivity.
  destruct (Authenticate_raises w) as [e|]; [reflexivity|].
  cbn. destruct (Initialize_raises w 1); reflexivity.
Qed.

Lemma run_unfold (w : World) (start_year end_year : Z) :
  run w start_year end_year =
  match session_result w with
  | Return _ =>
      match for_each (range start_year (end_year + 1)) (submit_year w)
                     (Print start_message :: session_log w) with
      | (log, Return _) => ((log ++ final_log)%list, Return tt)
      | (log, Raise e) => (log, Raise e)
      end
  | Raise e => (Print start_message :: session_log w, Raise e)
  end.
Proof.
  unfold run, script.
  unfold bind at 1. unfold print at 1, call at 1. cbn [app].
  fold start_message.
  unfold bind at 1. rewrite initialize_session_run.
  destruct (session_result w); [|reflexivity].
  unfold bind.
  destruct (for_each _ _ _) as [log [[]|e]]; [|reflexivity].
  apply final_message_run.
Qed.

Lemma session_ok_result (w : World) :
  session_ok w = true -> session_result w = Return tt.
Proof.
  unfold session_ok, session_result.
  destruct (Initialize_raises w 0) as [[m|m]|]; try discriminate; try reflexivity.
  destruct (Authenticate_raises w); [discriminate|].
  destruct (Initialize_raises w 1); [discriminate|reflexivity].
Qed.

Lemma started_session_log (w : World) : started (session_log w) = [].
Proof.
  unfold session_log.
  destruct (Initialize_raises w 0) as [[m|m]|]; try reflexivity.
  destruct (Authenticate_raises w); reflexivity.
Qed.

Lemma started_years (w : World) (ys : list Z) :
  started (List.flat_map (year_log w) ys) = List.map task ys.
Proof.
  induction ys as [|y ys IH]; [reflexivity|].
  cbn. rewrite IH. reflexivity.
Qed.

(** The run when initialization succeeds and no start raises. *)
Lemma run_all_start (w : World) (start_year end_year : Z) :
  session_ok w = true ->
  (forall y, start_year <= y <= end_year -> start_raises w (task y) = None) ->
  run w start_year end_year
  = ((Print start_message :: session_log w
      ++ List.flat_map (year_log w) (range start_year (end_year + 1))
      ++ final_log)%list,
     Return tt).
Proof.
  intros I S. rewrite run_unfold, (session_ok_result w I).
  rewrite for_each_all_start.
  - cbn [app]. rewrite <- app_assoc. reflexivity.
  - intros y H. apply In_range in H. apply S. lia.
Qed.

(** Every task the script starts, in any run, is the task of a year of
    the range. *)
Lemma run_started (w : World) (start_year end_year : Z) (t : Task) :
  In t (started (fst (run w start_year end_year))) ->
  exists year, start_year <= year <= end_year /\ t = task year.
Proof.
  rewrite run_unfold. intro H.
  assert (N : started (Print start_message :: session_log w) = [])
    by (cbn; apply started_session_log).
  destruct (session_result w).
  - pose proof (for_each_started w (range start_year (end_year + 1))
                  (Print start_message :: session_log w) t) as F.
    destruct (for_each _ _ _) as [log [[]|e]]; cbn [fst] in *.
    + rewrite started_app in H. apply in_app_or in H.
      destruct H as [H|H]; [|destruct H].
      destruct (F H) as [F'|[y [I E]]].
      * rewrite N in F'. destruct F'.
      * exists y. apply In_range in I. split; [lia|exact E].
    + destruct (F H) as [F'|[y [I E]]].
      * rewrite N in F'. destruct F'.
      * exists y. apply In_range in I. split; [lia|exact E].
  - cbn [fst] in H. rewrite N in H. destruct H.
Qed.

(** ** Names of the tasks *)

Lemma string_length_app (a b : string) :
  String.length (a ++ b) = (String.length a + String.length b)%nat.
Proof. induction a as [|c a IH]; cbn; [reflexivity|rewrite IH; reflexivity]. Qed.

Lemma append_cancel_l (p a b : string) : p ++ a = p ++ b -> a = b.
Proof.
  induction p as [|c p IH]; cbn; intro H; [exact H|].
  injection H as H. exact (IH H).
Qed.

Lemma append_cancel_r (t a b : string) : a ++ t = b ++ t -> a = b.
Proof.
  revert b. induction a as [|c a IH]; intros [|d b] H; cbn in H.
  - reflexivity.
  - apply (f_equal String.length) in H. cbn in H.
    rewrite string_length_app in H. lia.
  - apply (f_equal String.length) in H. cbn in H.
    rewrite string_length_app in H. lia.
  - injection H as -> H. f_equal. exact (IH b H).
Qed.

Lemma str_inj (a b : Z) : str a = str b -> a = b.
Proof.
  unfold str. intro H.
  apply (f_equal NilEmpty.int_of_string) in H.
  rewrite !NilEmpty.isi in H. injection H as H.
  exact (DecimalZ.to_int_inj _ _ H).
Qed.

Lemma description_inj (a b : Z) :
  description (task a) = description (task b) -> a = b.
Proof.
  cbn [description task]. intro H.
  apply append_cancel_l, append_cancel_r in H. exact (str_inj a b H).
Qed.

Lemma fileNamePrefix_inj (a b : Z) :
  fileNamePrefix (task a) = fileNamePrefix (task b) -> a = b.
Proof.
  cbn [fileNamePrefix task]. intro H.
  apply append_cancel_l, append_cancel_r in H. exact (str_inj a b H).
Qed.

Lemma NoDup_map_injective {A B} (f : A -> B) (l : list A) :
  (forall a b, f a = f b -> a = b) -> NoDup l -> NoDup (List.map f l).
Proof.
  intros I N. induction N as [|x l X N IH]; cbn; constructor; [|exact IH].
  intro H. apply in_map_iff in H. destruct H as [y [E H]].
  apply I in E. subst y. exact (X H).
Qed.

Lemma NoDup_range (a b : Z) : NoDup (range a b).
Proof.
  unfold range. apply NoDup_map_injective; [intros; lia|apply seq_NoDup].
Qed.

Lemma length_range (a b : Z) : List.length (range a b) = Z.to_nat (b - a).
Proof. unfold range. rewrite length_map, length_seq. reflexivity. Qed.

Lemma range_single (a : Z) : range a (a + 1) = [a].
Proof.
  unfold range. replace (a + 1 - a) with 1 by lia.
  change (Z.to_nat 1) with 1%nat. cbn [List.seq List.map].
  change (Z.of_nat 0) with 0. rewrite Z.add_0_r. reflexivity.
Qed.

Lemma range_empty (a b : Z) : b <= a -> range a b = [].
Proof.
  intro H. unfold range. replace (Z.to_nat (b - a)) with 0%nat by lia.
  reflexivity.
Qed.

Lemma name_contains_year (year : Z) :
  contains (description (task year)) (str year)
  /\ contains (fileNamePrefix (task year)) (str year).
Proof.
  split.
  - exists "Annual_Mean_AOD_", "_USA". reflexivity.
  - exists "AOD_", "_USA". reflexivity.
Qed.

(** C3. For [start_year <= end_year], when initialization succeeds and no
    start raises, the script starts exactly [end_year - start_year + 1]
    tasks, the tasks of the years of the inclusive range in order; each
    description and file name prefix contains its year, and both are
    pairwise distinct; with [start_year = end_year] exactly one task is
    started. *)
Theorem one_task_per_year :
  forall (w : World) (start_year end_year : Z),
    start_year <= end_year ->
    session_ok w = true ->
    (forall y, start_year <= y <= end_year -> start_raises w (task y) = None) ->
    snd (run w start_year end_year) = Return tt
    /\ started (fst (run w start_year end_year))
       = List.map task (range start_year (end_year + 1))
    /\ List.length (started (fst (run w start_year end_year)))
       = Z.to_nat (end_year - start_year + 1)
    /\ (forall year,
           In (task year) (started (fst (run w start_year end_year)))
           <-> start_year <= year <= end_year)
    /\ (forall year,
           contains (description (task year)) (str year)
           /\ contains (fileNamePrefix (task year)) (str year))
    /\ NoDup (List.map description (started (fst (run w start_year end_year))))
    /\ NoDup (List.map fileNamePrefix (started (fst (run w start_year end_year))))
    /\ (start_year = end_year ->
        started (fst (run w start_year end_year)) = [task start_year]).
Proof.
  intros w s e L I S.
  assert (T : started (fst (run w s e)) = List.map task (range s (e + 1))).
  { rewrite (run_all_start w s e I S). cbn [fst started].
    rewrite !started_app, started_session_log, started_years.
    cbn. rewrite app_nil_r. reflexivity. }
  rewrite T.
  split; [rewrite (run_all_start w s e I S); reflexivity|].
  split; [reflexivity|].
  split; [rewrite length_map, length_range; f_equal; lia|].
  split.
  { intro year. split.
    - intro H. apply in_map_iff in H. destruct H as [y [E H]].
      apply In_range in H. apply (f_equal description) in E.
      apply description_inj in E. lia.
    - intro H. apply in_map. apply range_In. lia. }
  split; [exact name_contains_year|].
  split; [|split].
  - rewrite map_map. apply NoDup_map_injective;
      [exact description_inj|apply NoDup_range].
  - rewrite map_map. apply NoDup_map_injective;
      [exact fileNamePrefix_inj|apply NoDup_range].
  - intros <-. rewrite range_single. reflexivity.
Qed.

Lemma one_task_per_year_witness :
  snd (run world_ok 2020 2021) = Return tt
  /\ started (fst (run world_ok 2020 2021)) = [task 2020; task 2021]
  /\ List.length (started (fst (run world_ok 2020 2021))) = 2%nat.
Proof.
  destruct (one_task_per_year world_ok 2020 2021) as [R [T [N _]]].
  - lia.
  - reflexivity.
  - reflexivity.
  - exact (conj R (conj T N)).
Defined.

(** C10. For [start_year > end_year], when initialization succeeds, the
    loop body never runs: no task is started, the run ends with the final
    message and the script returns normally. *)
Theorem empty_range_no_task :
  forall (w : World) (start_year end_year : Z),
    start_year > end_year ->
    session_ok w = true ->
    started (fst (run w start_year end_year)) = []
    /\ run w start_year end_year
       = ((Print start_message :: session_log w ++ final_log)%list, Return tt)
    /\ printed (fst (run w start_year end_year))
       = start_message :: printed final_log.
Proof.
  intros w s e G I.
  assert (R : run w s e
              = ((Print start_message :: session_log w ++ final_log)%list,
                 Return tt)).
  { rewrite run_unfold, (session_ok_result w I), range_empty by lia.
    reflexivity. }
  rewrite R. cbn [fst].
  split; [|split; [reflexivity|]].
  - cbn [started]. rewrite started_app, started_session_log. reflexivity.
  - unfold session_log.
    destruct (Initialize_raises w 0) as [[m|m]|]; try reflexivity.
    destruct (Authenticate_raises w); reflexivity.
Qed.

Lemma empty_range_no_task_witness :
  started (fst (run world_ok 2024 2015)) = []
  /\ run world_ok 2024 2015
     = ((Print start_message :: session_log world_ok ++ final_log)%list,
        Return tt)
  /\ printed (fst (run world_ok 2024 2015))
     = start_message :: printed final_log.
Proof.
  apply (empty_range_no_task world_ok 2024 2015).
  - lia.
  - reflexivity.
Defined.

(** ** Initialization *)

Lemma run_calls (w : World) (p : event -> bool) (start_year end_year : Z) :
  (forall line, p (Print line) = false) -> (forall t, p (Start t) = false) ->
  calls p (fst (run w start_year end_year)) = calls p (session_log w).
Proof.
  intros P S. rewrite run_unfold.
  assert (B : calls p (Print start_message :: session_log w)
              = calls p (session_log w)).
  { unfold calls. cbn [List.filter]. rewrite P. reflexivity. }
  destruct (session_result w); [|exact B].
  pose proof (for_each_calls w p (range start_year (end_year + 1)) P S
                (Print start_message :: session_log w)) as F.
  destruct (for_each _ _ _) as [log [[]|e]]; cbn [fst] in *.
  - rewrite calls_app, F, B. unfold calls at 2. cbn. rewrite !P. cbn. lia.
  - rewrite F. exact B.
Qed.

(** A failure of the re-authentication itself ends the script before any
    second initialization. *)
Lemma authenticate_failure_is_fatal (w : World) (s e : Z) (msg : string) (x : exn) :
  Initialize_raises w 0 = Some (Exception msg) ->
  Authenticate_raises w = Some x ->
  run w s e = ([Print start_message; Initialize; Authenticate], Raise x).
Proof.
  intros I A. rewrite run_unfold. unfold session_result, session_log.
  rewrite I, A. reflexivity.
Qed.

(** C6. When the first [ee.Initialize] raises an [Exception], the script
    calls [ee.Authenticate] once and (when that returns) [ee.Initialize]
    once more, and never again in the whole run; if the second
    initialization raises, that exception ends the script, uncaught, right
    there. *)
Theorem initialization_fallback_once :
  forall (w : World) (start_year end_year : Z) (msg : string),
    Initialize_raises w 0 = Some (Exception msg) ->
    Authenticate_raises w = None ->
    (exists rest,
        fst (run w start_year end_year)
        = ([Print start_message; Initialize; Authenticate; Initialize] ++ rest)%list)
    /\ calls is_Initialize (fst (run w start_year end_year)) = 2%nat
    /\ calls is_Authenticate (fst (run w start_year end_year)) = 1%nat
    /\ (forall x, Initialize_raises w 1 = Some x ->
                  run w start_year end_year
                  = ([Print start_message; Initialize; Authenticate; Initialize],
                     Raise x)).
Proof.
  intros w s e msg I A.
  assert (L : session_log w = [Initialize; Authenticate; Initialize])
    by (unfold session_log; rewrite I, A; reflexivity).
  assert (R : session_result w = raised (Initialize_raises w 1))
    by (unfold session_result; rewrite I, A; reflexivity).
  split; [|split; [|split]].
  - rewrite run_unfold, L, R.
    destruct (Initialize_raises w 1) as [x|]; cbn [raised].
    + exists []. reflexivity.
    + clear I A L R.
      generalize (range s (e + 1)). intro ys.
      assert (P : forall ys log, exists rest,
                   fst (for_each ys (submit_year w) log) = (log ++ rest)%list).
      { clear. induction ys as [|y ys IH]; intro log.
        - exists []. cbn. rewrite app_nil_r. reflexivity.
        - rewrite for_each_cons, submit_year_run.
          destruct (start_raises w (task y)).
          + eexists. reflexivity.
          + destruct (IH (log ++ year_log w y)%list) as [rest E].
            exists (year_log w y ++ rest)%list.
            rewrite E, app_assoc. reflexivity. }
      destruct (P ys [Print start_message; Initialize; Authenticate; Initialize])
        as [rest E].
      destruct (for_each _ _ _) as [log [[]|x]]; cbn [fst] in *; subst log.
      * exists (rest ++ final_log)%list. rewrite <- app_assoc. reflexivity.
      * exists rest. reflexivity.
  - rewrite run_calls, L by reflexivity. reflexivity.
  - rewrite run_calls, L by reflexivity. reflexivity.
  - intros x X. rewrite run_unfold, L, R, X. reflexivity.
Qed.

Lemma initialization_fallback_once_witness :
  calls is_Initialize (fst (run world_no_session 2015 2024)) = 2%nat
  /\ calls is_Authenticate (fst (run world_no_session 2015 2024)) = 1%nat
  /\ run world_no_session 2015 2024
     = ([Print start_message; Initialize; Authenticate; Initialize],
        Raise (Exception "Please authorize access to your Earth Engine account")).
Proof.
  destruct (initialization_fallback_once world_no_session 2015 2024
              "Please authorize access to your Earth Engine account")
    as [_ [I [A F]]].
  - reflexivity.
  - reflexivity.
  - exact (conj I (conj A (F _ eq_refl))).
Defined.

(** ** The expression of each task *)

(** C7. Every task the script starts, in any run, is the task of a year
    of the range, with the export resolution constant as scale, the CRS
    [EPSG:4326], the folder [GEE_Exports], the pixel ceiling [1e13], the
    file name prefix [AOD_<year>_USA], and an image clipped to the
    boundary. *)
Theorem export_parameters :
  forall (w : World) (start_year end_year : Z) (t : Task),
    In t (started (fst (run w start_year end_year))) ->
    exists year,
      start_year <= year <= end_year
      /\ scale t = export_scale
      /\ crs t = "EPSG:4326"
      /\ folder t = "GEE_Exports"
      /\ maxPixels t = 10000000000000
      /\ fileNamePrefix t = "AOD_" ++ str year ++ "_USA"
      /\ description t = "Annual_Mean_AOD_" ++ str year ++ "_USA"
      /\ image t = ee.clip (annual_mean_aod year) usa.
Proof.
  intros w s e t H.
  destruct (run_started w s e t H) as [year [R ->]].
  exists year. repeat (split; [first [exact R | reflexivity]|]). reflexivity.
Qed.

Lemma export_parameters_witness :
  exists year,
    2020 <= year <= 2021
    /\ scale (task 2021) = export_scale
    /\ crs (task 2021) = "EPSG:4326"
    /\ folder (task 2021) = "GEE_Exports"
    /\ maxPixels (task 2021) = 10000000000000
    /\ fileNamePrefix (task 2021) = "AOD_" ++ str year ++ "_USA"
    /\ description (task 2021) = "Annual_Mean_AOD_" ++ str year ++ "_USA"
    /\ image (task 2021) = ee.clip (annual_mean_aod year) usa.
Proof.
  apply (export_parameters world_ok 2020 2021 (task 2021)).
  right. left. reflexivity.
Defined.

(** In every task of every run, the geometry the collection is filtered
    by and the geometry the image is clipped to are both [usa]. *)
Lemma boundary_shared :
  forall (w : World) (start_year end_year : Z) (t : Task),
    In t (started (fst (run w start_year end_year))) ->
    filter_geometries (image t) = [usa]
    /\ clip_geometries (image t) = [usa]
    /\ exists i, image t = ee.clip i usa.
Proof.
  intros w s e t H.
  destruct (run_started w s e t H) as [year [R ->]].
  split; [reflexivity|]. split; [reflexivity|].
  exists (annual_mean_aod year). reflexivity.
Qed.

(** C4. In every task of every run the expression holds exactly one
    multiplication; it multiplies the temporal mean by the scale factor,
    and the collection that is averaged holds none: the composite is the
    mean of the stored values, then scaled, then clipped. *)
Theorem scale_after_mean :
  forall (w : World) (start_year end_year : Z) (t : Task),
    In t (started (fst (run w start_year end_year))) ->
    exists c,
      List.filter is_multiply (subimages (image t))
      = [ee.multiply (ee.mean c) scale_factor]
      /\ List.filter is_multiply (subimages_in c) = []
      /\ forall catalog inside,
          composite catalog inside (image t)
          = option_map
              (fun gs => clip_pixel (inside usa)
                           (scale_pixel scale_factor (mean_pixel gs)))
              (images catalog c).
Proof.
  intros w s e t H.
  destruct (run_started w s e t H) as [year [R ->]].
  eexists. split; [reflexivity|]. split; [reflexivity|].
  intros catalog inside.
  cbn [composite image task annual_mean_aod].
  destruct (images catalog _); reflexivity.
Qed.

Lemma scale_after_mean_witness :
  exists c,
    List.filter is_multiply (subimages (image (task 2020)))
    = [ee.multiply (ee.mean c) scale_factor]
    /\ List.filter is_multiply (subimages_in c) = []
    /\ forall catalog inside,
        composite catalog inside (image (task 2020))
        = option_map
            (fun gs => clip_pixel (inside usa)
                         (scale_pixel scale_factor (mean_pixel gs)))
            (images catalog c).
Proof.
  apply (scale_after_mean world_ok 2020 2021 (task 2020)).
  left. reflexivity.
Defined.

(** ** Masking and the mean *)

Lemma map_images_maskAOD (gs : list Granule) :
  map_images (maskAOD ee.arg) gs
  = if forallb (fun g => has_band "AOD_QA" (pixel g)) gs
    then Some (List.map
                 (fun g => set_pixel g (apply_mask (decide_mask (pixel g)) (pixel g)))
                 gs)
    else None.
Proof.
  induction gs as [|g gs IH]; [reflexivity|].
  cbn [map_images List.map forallb]. rewrite eval_maskAOD, IH.
  destruct (has_band "AOD_QA" (pixel g)); [|reflexivity].
  destruct (forallb _ gs); reflexivity.
Qed.

Lemma select_images_spec (band : string) (gs : list Granule) :
  select_images band gs
  = if forallb (fun g => has_band band (pixel g)) gs
    then Some (List.map (fun g => set_pixel g (select_band band (pixel g))) gs)
    else None.
Proof.
  induction gs as [|g gs IH]; [reflexivity|].
  cbn [select_images List.map forallb]. rewrite IH.
  unfold select_pixel, has_band.
  destruct (select_band band (pixel g)); [reflexivity|].
  destruct (forallb _ gs); reflexivity.
Qed.

(** The images a year's mean aggregates are catalogue images, each one
    masked by [maskAOD] and reduced to the AOD band. *)
Lemma annual_images (catalog : string -> list Granule) (year : Z)
      (c : ee.ImageCollection) (gs : list Granule) :
  mean_inputs (image (task year)) = [c] ->
  images catalog c = Some gs ->
  Forall (fun g => exists g0, In g0 (catalog collection_id) /\ g = masked_band g0) gs.
Proof.
  intros C H. injection C as <-. cbn [images] in H.
  destruct (parse_date (start_date year)) as [a|]; [|discriminate].
  destruct (parse_date (end_date year)) as [b|]; [|discriminate].
  cbn [option_map] in H. rewrite map_images_maskAOD in H.
  destruct (forallb _ _); [|discriminate].
  rewrite select_images_spec in H.
  destruct (forallb _ _); [|discriminate].
  injection H as <-.
  apply Forall_forall. intros g G.
  apply in_map_iff in G. destruct G as [g1 [<- G]].
  apply in_map_iff in G. destruct G as [g0 [<- G]].
  apply filter_In in G. destruct G as [G _].
  apply filter_In in G. destruct G as [G _].
  exists g0. split; [exact G|reflexivity].
Qed.

Lemma select_band_mask_all (band : string) (p : Pixel) :
  select_band band (mask_all p) = mask_all (select_band band p).
Proof.
  unfold select_band, mask_all.
  induction p as [|[b v] p IH]; [reflexivity|].
  cbn [List.map List.filter fst]. rewrite IH.
  unfold has_name. cbn [fst].
  destruct (String.eqb b band); reflexivity.
Qed.

Lemma select_band_twice (band : string) (p : Pixel) :
  select_band band (select_band band p) = select_band band p.
Proof.
  induction p as [|bv p IH]; [reflexivity|].
  cbn. destruct (has_name band bv) eqn:E; [|exact IH].
  cbn. rewrite E. f_equal. exact IH.
Qed.

(** An image contributes its stored AOD value to the mean when its
    quality value passes, and nothing when it does not. *)
Lemma masked_band_value (g : Granule) (q : Z) :
  qa_value (pixel g) q ->
  band_value aod_band (masked_band g)
  = if pixel_mask q then band_value aod_band g else [].
Proof.
  intro Q. unfold band_value, masked_band, decide_mask.
  rewrite (mask_decision_qa _ _ Q). cbn [pixel set_pixel].
  rewrite select_band_twice.
  destruct (pixel_mask q); cbn [apply_mask]; [reflexivity|].
  rewrite select_band_mask_all.
  destruct (select_band aod_band (pixel g)) as [|[b v] l]; reflexivity.
Qed.

(** C5. In every task of every run there is one temporal mean; the
    collection it aggregates has [maskAOD] mapped over its images, so each
    image entering the mean is a catalogue image already masked, and an
    image whose quality value fails the predicate contributes no value;
    the only mask update of the expression is the mapped one, which
    contains no mean. *)
Theorem mask_before_mean :
  forall (w : World) (start_year end_year : Z) (t : Task),
    In t (started (fst (run w start_year end_year))) ->
    exists c,
      mean_inputs (image t) = [c]
      /\ In (maskAOD ee.arg) (mapped c)
      /\ List.filter is_updateMask (subimages (image t)) = [maskAOD ee.arg]
      /\ mean_inputs (maskAOD ee.arg) = []
      /\ (forall catalog gs,
             images catalog c = Some gs ->
             Forall (fun g => exists g0,
                         In g0 (catalog collection_id) /\ g = masked_band g0) gs)
      /\ (forall g q,
             qa_value (pixel g) q -> pixel_mask q = false ->
             band_value aod_band (masked_band g) = []).
Proof.
  intros w s e t H.
  destruct (run_started w s e t H) as [year [R ->]].
  eexists. split; [reflexivity|]. split; [left; reflexivity|].
  split; [reflexivity|]. split; [reflexivity|]. split.
  - intros catalog gs G. exact (annual_images catalog year _ gs eq_refl G).
  - intros g q Q F. rewrite (masked_band_value g q Q), F. reflexivity.
Qed.

Lemma mask_before_mean_witness :
  exists c,
    mean_inputs (image (task 2020)) = [c]
    /\ In (maskAOD ee.arg) (mapped c)
    /\ List.filter is_updateMask (subimages (image (task 2020))) = [maskAOD ee.arg]
    /\ mean_inputs (maskAOD ee.arg) = []
    /\ (forall catalog gs,
           images catalog c = Some gs ->
           Forall (fun g => exists g0,
                       In g0 (catalog collection_id) /\ g = masked_band g0) gs)
    /\ (forall g q,
           qa_value (pixel g) q -> pixel_mask q = false ->
           band_value aod_band (masked_band g) = []).
Proof.
  apply (mask_before_mean world_ok 2020 2021 (task 2020)).
  left. reflexivity.
Defined.

(** With a clear, best-quality image on December 30 and another on
    December 31, the composite of 2015 is the scaled value of the first
    alone. *)
Example december_31_image_dropped :
  images sample_catalog
         (ee.filterDate (ee.ImageCollection_id collection_id)
                        (start_date 2015) (end_date 2015))
  = Some [ mkGranule (mkDateTime 2015 12 30 64800000) (fun _ => true)
                     [("Optical_Depth_055", Some 100); ("AOD_QA", Some 1)] ]
  /\ composite sample_catalog (fun _ => true) (image (task 2015))
     = Some [("Optical_Depth_055", Some (100 # 1000))].
Proof. split; vm_compute; reflexivity. Qed.

(** The script with its own range, 2015 to 2024, in a world where every
    call returns: ten tasks, one per year. *)
Example main_ten_tasks :
  snd (main world_ok []) = Return tt
  /\ List.map fileNamePrefix (started (fst (main world_ok [])))
     = [ "AOD_2015_USA"; "AOD_2016_USA"; "AOD_2017_USA"; "AOD_2018_USA";
         "AOD_2019_USA"; "AOD_2020_USA"; "AOD_2021_USA"; "AOD_2022_USA";
         "AOD_2023_USA"; "AOD_2024_USA" ].
Proof. split; vm_compute; reflexivity. Qed.

(** * Further properties of the script *)

(** ** The bits the mask reads *)

Lemma land_ones_eq (q k v : Z) :
  0 <= k -> 0 <= v < 2 ^ k ->
  (Z.land q (Z.ones k) = v
   <-> forall n, 0 <= n < k -> Z.testbit q n = Z.testbit v n).
Proof.
  intros K V. split.
  - intros <- n N.
    rewrite Z.land_spec, Z.ones_spec_low by lia.
    rewrite andb_true_r. reflexivity.
  - intro H. apply Z.bits_inj'. intros n N.
    rewrite Z.land_spec.
    destruct (Z.lt_ge_cases n k) as [L|L].
    + rewrite Z.ones_spec_low, andb_true_r by lia. apply H. lia.
    + rewrite Z.ones_spec_high, andb_false_r by lia.
      symmetry. destruct (Z.eq_dec v 0) as [->|P]; [apply Z.bits_0|].
      apply Z.bits_above_log2; [lia|].
      apply Z.log2_lt_pow2; [lia|].
      apply Z.lt_le_trans with (2 ^ k); [lia|].
      apply Z.pow_le_mono_r; lia.
Qed.

Lemma pixel_mask_testbits (q : Z) :
  pixel_mask q = true <->
  Z.testbit q 0 = true /\ Z.testbit q 1 = false /\ Z.testbit q 2 = false
  /\ Z.testbit q 3 = false /\ Z.testbit q 4 = false
  /\ Z.testbit q 8 = false /\ Z.testbit q 9 = false
  /\ Z.testbit q 10 = false /\ Z.testbit q 11 = false.
Proof.
  assert (U : pixel_mask q
              = (Z.land q (Z.ones 3) =? 1)
                && (Z.land (Z.shiftr q 3) (Z.ones 2) =? 0)
                && (Z.land (Z.shiftr q 8) (Z.ones 4) =? 0))
    by apply pixel_mask_bits.
  rewrite U, !andb_true_iff, !Z.eqb_eq. clear U.
  rewrite !land_ones_eq by (cbn; lia).
  split.
  - intros [[A B] C].
    pose proof (A 0 ltac:(lia)) as A0. pose proof (A 1 ltac:(lia)) as A1.
    pose proof (A 2 ltac:(lia)) as A2.
    pose proof (B 0 ltac:(lia)) as B0. pose proof (B 1 ltac:(lia)) as B1.
    pose proof (C 0 ltac:(lia)) as C0. pose proof (C 1 ltac:(lia)) as C1.
    pose proof (C 2 ltac:(lia)) as C2. pose proof (C 3 ltac:(lia)) as C3.
    rewrite Z.shiftr_spec in B0, B1, C0, C1, C2, C3 by lia.
    cbn in *. tauto.
  - intros [A0 [A1 [A2 [B0 [B1 [C0 [C1 [C2 C3]]]]]]]].
    repeat split; intros n N; rewrite ?Z.shiftr_spec by lia.
    + assert (E : n = 0 \/ n = 1 \/ n = 2) by lia.
      destruct E as [ -> | [ -> | -> ] ]; cbn; assumption.
    + assert (E : n = 0 \/ n = 1) by lia.
      destruct E as [ -> | -> ]; cbn; assumption.
    + assert (E : n = 0 \/ n = 1 \/ n = 2 \/ n = 3) by lia.
      destruct E as [ -> | [ -> | [ -> | -> ] ] ]; cbn; assumption.
Qed.

(** X1. The mask is true exactly when bit 0 of the quality value is set
    and bits 1-4 and 8-11 are clear; bits 5-7 and 12 and above are never
    read: the decision is the same for [q] and [q & 0xF1F]. *)
Theorem mask_reads_nine_bits :
  forall q : Z,
    (pixel_mask q = true <->
       Z.testbit q 0 = true /\ Z.testbit q 1 = false /\ Z.testbit q 2 = false
       /\ Z.testbit q 3 = false /\ Z.testbit q 4 = false
       /\ Z.testbit q 8 = false /\ Z.testbit q 9 = false
       /\ Z.testbit q 10 = false /\ Z.testbit q 11 = false)
    /\ pixel_mask (Z.land q qa_bits) = pixel_mask q.
Proof.
  intro q. split; [apply pixel_mask_testbits|].
  apply eq_true_iff_eq. rewrite !pixel_mask_testbits.
  unfold qa_bits. rewrite !Z.land_spec.
  cbn [Z.testbit Pos.testbit Z.pred_double Pos.pred_N Z.to_N Pos.pred_double].
  rewrite !andb_true_r. reflexivity.
Qed.

(** ** Masking twice *)

Lemma eval_maskAOD_of (image : ee.Image) (p : Pixel) :
  eval (maskAOD image) p
  = match eval image p with
    | Some x =>
        if has_band "AOD_QA" x then Some (apply_mask (decide_mask x) x) else None
    | None => None
    end.
Proof.
  unfold decide_mask, mask_decision, maskAOD, has_band.
  cbn [eval mask_of option_map]. unfold select_pixel.
  destruct (eval image p) as [x|]; [|reflexivity].
  destruct (select_band "AOD_QA" x); reflexivity.
Qed.

Lemma has_band_apply_mask (band : string) (keep : bool) (p : Pixel) :
  has_band band (apply_mask keep p) = has_band band p.
Proof.
  destruct keep; [reflexivity|].
  unfold has_band. cbn [apply_mask]. rewrite select_band_mask_all.
  destruct (select_band band p); reflexivity.
Qed.

Lemma forallb_same {A} (f g : A -> bool) (l : list A) :
  (forall a, f a = g a) -> forallb f l = forallb g l.
Proof.
  intro E. induction l as [|a l IH]; [reflexivity|].
  cbn [forallb]. rewrite E, IH. reflexivity.
Qed.

Lemma forallb_map {A B} (f : B -> bool) (g : A -> B) (l : list A) :
  forallb f (List.map g l) = forallb (fun a => f (g a)) l.
Proof.
  induction l as [|a l IH]; [reflexivity|].
  cbn [List.map forallb]. rewrite IH. reflexivity.
Qed.

Lemma mask_all_twice (p : Pixel) : mask_all (mask_all p) = mask_all p.
Proof. unfold mask_all. rewrite map_map. reflexivity. Qed.

Lemma apply_mask_twice (p : Pixel) :
  apply_mask (decide_mask (apply_mask (decide_mask p) p))
             (apply_mask (decide_mask p) p)
  = apply_mask (decide_mask p) p.
Proof.
  destruct (decide_mask p) eqn:D; cbn [apply_mask].
  - rewrite D. reflexivity.
  - destruct (decide_mask (mask_all p)); cbn [apply_mask];
      [reflexivity|apply mask_all_twice].
Qed.

(** X2. Applying [maskAOD] to an image it has already masked changes
    nothing, at a pixel and over a whole collection. *)
Theorem maskAOD_idempotent :
  forall (image : ee.Image) (p : Pixel)
         (catalog : string -> list Granule) (c : ee.ImageCollection),
    eval (maskAOD (maskAOD image)) p = eval (maskAOD image) p
    /\ images catalog (ee.map (ee.map c (maskAOD ee.arg)) (maskAOD ee.arg))
       = images catalog (ee.map c (maskAOD ee.arg)).
Proof.
  intros image p catalog c. split.
  - rewrite (eval_maskAOD_of (maskAOD image)), eval_maskAOD_of.
    destruct (eval image p) as [x|]; [|reflexivity].
    destruct (has_band "AOD_QA" x) eqn:B; [|reflexivity].
    rewrite has_band_apply_mask, B, apply_mask_twice. reflexivity.
  - cbn [images]. destruct (images catalog c) as [gs|]; [|reflexivity].
    rewrite map_images_maskAOD.
    destruct (forallb _ gs) eqn:B; [|reflexivity].
    rewrite map_images_maskAOD, forallb_map.
    cbn [pixel set_pixel].
    rewrite (forallb_same _ (fun g => has_band "AOD_QA" (pixel g)))
      by (intro g; apply has_band_apply_mask).
    rewrite B, map_map.
    f_equal. apply map_ext. intro g. unfold set_pixel.
    cbn [pixel time_start intersects]. rewrite apply_mask_twice. reflexivity.
Qed.

(** ** Initialization, in every world *)

(** X3. Whatever the outside answers, a run calls [ee.Initialize] once or
    twice and [ee.Authenticate] at most once: [ee.Authenticate] is called
    exactly when the first [ee.Initialize] raised an [Exception], and
    [ee.Initialize] a second time exactly when, besides,
    [ee.Authenticate] returned. *)
Theorem initialization_calls :
  forall (w : World) (start_year end_year : Z),
    (calls is_Initialize (fst (run w start_year end_year)) = 1%nat
     \/ calls is_Initialize (fst (run w start_year end_year)) = 2%nat)
    /\ (calls is_Authenticate (fst (run w start_year end_year)) <= 1)%nat
    /\ (calls is_Authenticate (fst (run w start_year end_year)) = 1%nat
        <-> exists msg, Initialize_raises w 0 = Some (Exception msg))
    /\ (calls is_Initialize (fst (run w start_year end_year)) = 2%nat
        <-> (exists msg, Initialize_raises w 0 = Some (Exception msg))
            /\ Authenticate_raises w = None).
Proof.
  intros w s e. rewrite !run_calls by reflexivity. unfold session_log.
  destruct (Initialize_raises w 0) as [[m|m]|];
    [destruct (Authenticate_raises w) as [x|]| |];
    cbn; (split; [auto|]); (split; [lia|]); split;
    (split;
     [ first [easy | intros _; repeat split; eauto]
     | first [easy | intros [? ?]; easy | intros [[? ?] ?]; easy] ]).
Qed.

(** X4. When initialization does not succeed, the script ends with the
    exception of the call that failed, having printed its first line only
    and started no task: the exception of the first [ee.Initialize] when
    it is not an [Exception], otherwise the exception of
    [ee.Authenticate] when that raises, otherwise the exception of the
    second [ee.Initialize]. *)
Theorem initialization_failure_is_fatal :
  forall (w : World) (start_year end_year : Z),
    session_ok w = false ->
    ((exists msg,
         Initialize_raises w 0 = Some (BaseException msg)
         /\ run w start_year end_year
            = ([Print start_message; Initialize], Raise (BaseException msg)))
     \/ (exists msg x,
            Initialize_raises w 0 = Some (Exception msg)
            /\ Authenticate_raises w = Some x
            /\ run w start_year end_year
               = ([Print start_message; Initialize; Authenticate], Raise x))
     \/ (exists msg x,
            Initialize_raises w 0 = Some (Exception msg)
            /\ Authenticate_raises w = None
            /\ Initialize_raises w 1 = Some x
            /\ run w start_year end_year
               = ([Print start_message; Initialize; Authenticate; Initialize],
                  Raise x)))
    /\ started (fst (run w start_year end_year)) = []
    /\ printed (fst (run w start_year end_year)) = [start_message].
Proof.
  intros w s e F. rewrite run_unfold.
  unfold session_ok in F. unfold session_result, session_log.
  destruct (Initialize_raises w 0) as [[m|m]|]; [| |discriminate].
  - destruct (Authenticate_raises w) as [x|].
    + split; [|split; reflexivity].
      right. left. exists m, x. repeat split; reflexivity.
    + destruct (Initialize_raises w 1) as [x|]; [|discriminate].
      split; [|split; reflexivity].
      right. right. exists m, x. repeat split; reflexivity.
  - split; [|split; reflexivity].
    left. exists m. split; reflexivity.
Qed.

Lemma initialization_failure_is_fatal_witness :
  run world_no_session 2015 2024
  = ([Print start_message; Initialize; Authenticate; Initialize],
     Raise (Exception "Please authorize access to your Earth Engine account"))
  /\ started (fst (run world_no_session 2015 2024)) = []
  /\ printed (fst (run world_no_session 2015 2024)) = [start_message].
Proof.
  destruct (initialization_failure_is_fatal world_no_session 2015 2024)
    as [[[m [I _]]|[[m [x [_ [A _]]]]|[m [x [_ [_ [I R]]]]]]] [S P]].
  - reflexivity.
  - discriminate I.
  - discriminate A.
  - injection I as <-. exact (conj R (conj S P)).
Defined.

(** ** A failing task start *)

Lemma map_seq_offset {A} (f : nat -> A) (n len : nat) :
  List.map f (List.seq n len) = List.map (fun i => f (n + i)%nat) (List.seq 0 len).
Proof.
  revert n f. induction len as [|len IH]; intros n f; [reflexivity|].
  cbn [List.seq List.map]. rewrite Nat.add_0_r. f_equal.
  rewrite (IH (S n)), (IH 1%nat). apply map_ext. intro i.
  f_equal. lia.
Qed.

Lemma range_app (a k b : Z) :
  a <= k <= b -> range a b = (range a k ++ range k b)%list.
Proof.
  intro H. unfold range.
  replace (Z.to_nat (b - a)) with (Z.to_nat (k - a) + Z.to_nat (b - k))%nat by lia.
  rewrite seq_app, map_app. f_equal.
  cbn [Nat.add]. rewrite map_seq_offset. apply map_ext. intro i. lia.
Qed.

Lemma range_cons (a b : Z) : a < b -> range a b = a :: range (a + 1) b.
Proof.
  intro H. rewrite (range_app a (a + 1) b) by lia.
  rewrite range_single. reflexivity.
Qed.

(** The loop stops at the first start that raises. *)
Lemma for_each_start_raises (w : World) (pre post : list Z) (k : Z) (x : exn) :
  (forall y, In y pre -> start_raises w (task y) = None) ->
  start_raises w (task k) = Some x ->
  forall log,
    for_each (pre ++ k :: post) (submit_year w) log
    = ((log ++ List.flat_map (year_log w) pre
        ++ [Print ("Submitting export task for year: " ++ str k ++ "...");
            Start (task k)])%list,
       Raise x).
Proof.
  intros P K. induction pre as [|y pre IH]; intro log.
  - cbn [app List.flat_map]. rewrite for_each_cons, submit_year_run, K.
    reflexivity.
  - cbn [app]. rewrite for_each_cons, submit_year_run, (P y) by (left; reflexivity).
    rewrite IH by (intros; apply P; right; assumption).
    cbn [List.flat_map]. rewrite <- !app_assoc. reflexivity.
Qed.

(** X5. When initialization succeeds, the starts of the years before [k]
    return and the start of year [k] raises, the script ends there with
    that exception: the tasks started are those of [start_year .. k], no
    later year is attempted, and the final message is not printed. *)
Theorem start_failure_stops_the_loop :
  forall (w : World) (start_year end_year k : Z) (x : exn),
    start_year <= k <= end_year ->
    session_ok w = true ->
    (forall y, start_year <= y < k -> start_raises w (task y) = None) ->
    start_raises w (task k) = Some x ->
    run w start_year end_year
    = ((Print start_message :: session_log w
        ++ List.flat_map (year_log w) (range start_year k)
        ++ [Print ("Submitting export task for year: " ++ str k ++ "...");
            Start (task k)])%list,
       Raise x)
    /\ started (fst (run w start_year end_year))
       = List.map task (range start_year (k + 1))
    /\ (forall y, k < y -> ~ In (task y) (started (fst (run w start_year end_year))))
    /\ printed (fst (run w start_year end_year))
       = (start_message :: List.flat_map (year_lines w) (range start_year k)
          ++ [("Submitting export task for year: " ++ str k ++ "...")%string])%list.
Proof.
  intros w s e k x K I S X.
  assert (R : run w s e
              = ((Print start_message :: session_log w
                  ++ List.flat_map (year_log w) (range s k)
                  ++ [Print ("Submitting export task for year: " ++ str k ++ "...");
                      Start (task k)])%list,
                 Raise x)).
  { rewrite run_unfold, (session_ok_result w I).
    rewrite (range_app s k (e + 1)), (range_cons k (e + 1)) by lia.
    rewrite (for_each_start_raises w (range s k) (range (k + 1) (e + 1)) k x).
    - reflexivity.
    - intros y H. apply In_range in H. apply S. lia.
    - exact X. }
  assert (T : started (fst (run w s e)) = List.map task (range s (k + 1))).
  { rewrite R. cbn [fst started].
    rewrite !started_app, started_session_log, started_years.
    rewrite (range_app s k (k + 1)), range_single, map_app by lia.
    reflexivity. }
  split; [exact R|]. split; [exact T|]. split.
  - intros y Y H. rewrite T in H. apply in_map_iff in H.
    destruct H as [y' [E H]]. apply In_range in H.
    apply (f_equal description), description_inj in E. lia.
  - rewrite R. cbn [fst printed]. f_equal.
    assert (A : forall l l', printed (l ++ l') = (printed l ++ printed l')%list).
    { induction l as [|ev l IH]; intro l'; [reflexivity|].
      destruct ev; cbn; rewrite IH; reflexivity. }
    rewrite !A.
    assert (N : printed (session_log w) = []).
    { unfold session_log.
      destruct (Initialize_raises w 0) as [[m|m]|]; try reflexivity.
      destruct (Authenticate_raises w); reflexivity. }
    rewrite N. cbn [app]. f_equal.
    generalize (range s k). intro ys.
    induction ys as [|y ys IH]; [reflexivity|].
    cbn [List.flat_map]. rewrite A, IH. reflexivity.
Qed.

Lemma start_failure_stops_the_loop_witness :
  snd (run world_start_fails 2020 2024)
  = Raise (Exception "Too many tasks already in the queue")
  /\ started (fst (run world_start_fails 2020 2024)) = [task 2020; task 2021]
  /\ ~ In (task 2022) (started (fst (run world_start_fails 2020 2024))).
Proof.
  destruct (start_failure_stops_the_loop world_start_fails 2020 2024 2021
              (Exception "Too many tasks already in the queue"))
    as [R [T [N _]]].
  - lia.
  - reflexivity.
  - intros y Y. assert (E : y = 2020) by lia. rewrite E. reflexivity.
  - reflexivity.
  - split; [rewrite R; reflexivity|].
    split; [exact T|]. apply N. lia.
Defined.

(** ** The output of a complete run *)

Lemma printed_app (l l' : list event) :
  printed (l ++ l') = (printed l ++ printed l')%list.
Proof.
  induction l as [|ev l IH]; [reflexivity|].
  destruct ev; cbn; rewrite IH; reflexivity.
Qed.

Lemma printed_session_log (w : World) : printed (session_log w) = [].
Proof.
  unfold session_log.
  destruct (Initialize_raises w 0) as [[m|m]|]; try reflexivity.
  destruct (Authenticate_raises w); reflexivity.
Qed.

Lemma printed_years (w : World) (ys : list Z) :
  printed (List.flat_map (year_log w) ys) = List.flat_map (year_lines w) ys.
Proof.
  induction ys as [|y ys IH]; [reflexivity|].
  cbn [List.flat_map]. rewrite printed_app, IH. reflexivity.
Qed.

Lemma length_year_lines (w : World) (ys : list Z) :
  List.length (List.flat_map (year_lines w) ys) = (2 * List.length ys)%nat.
Proof.
  induction ys as [|y ys IH]; [reflexivity|].
  cbn [List.flat_map]. rewrite length_app, IH. cbn. lia.
Qed.

(** X6. When initialization succeeds and no start raises, the script
    prints its first line, then for each year of the range, in order, the
    line announcing the task and, after the start, the line reporting it,
    and last the three lines of the final message: [2 * n + 4] lines for
    [n] years. *)
Theorem complete_run_output :
  forall (w : World) (start_year end_year : Z),
    session_ok w = true ->
    (forall y, start_year <= y <= end_year -> start_raises w (task y) = None) ->
    printed (fst (run w start_year end_year))
    = (start_message
       :: List.flat_map (year_lines w) (range start_year (end_year + 1))
       ++ printed final_log)%list
    /\ List.length (printed (fst (run w start_year end_year)))
       = (2 * Z.to_nat (end_year + 1 - start_year) + 4)%nat
    /\ exists before_final,
        fst (run w start_year end_year) = (before_final ++ final_log)%list
        /\ Forall (fun t => In (Start t) before_final)
                  (List.map task (range start_year (end_year + 1))).
Proof.
  intros w s e I S. rewrite (run_all_start w s e I S). cbn [fst].
  assert (P : printed (Print start_message :: session_log w
                       ++ List.flat_map (year_log w) (range s (e + 1))
                       ++ final_log)
              = (start_message
                 :: List.flat_map (year_lines w) (range s (e + 1))
                 ++ printed final_log)%list).
  { cbn [printed]. rewrite !printed_app, printed_session_log, printed_years.
    reflexivity. }
  split; [exact P|]. split.
  - rewrite P. cbn [List.length]. rewrite length_app, length_year_lines, length_range.
    cbn. lia.
  - exists (Print start_message :: session_log w
            ++ List.flat_map (year_log w) (range s (e + 1)))%list.
    split; [cbn [app]; rewrite <- app_assoc; reflexivity|].
    apply Forall_forall. intros t T.
    apply in_map_iff in T. destruct T as [y [<- Y]].
    right. apply in_or_app. right.
    apply in_flat_map. exists y. split; [exact Y|].
    right. left. reflexivity.
Qed.

Lemma complete_run_output_witness :
  List.length (printed (fst (run world_ok 2020 2021))) = 8%nat.
Proof.
  destruct (complete_run_output world_ok 2020 2021) as [_ [L _]].
  - reflexivity.
  - reflexivity.
  - exact L.
Defined.

(** ** The window, day by day *)

Lemma days_in_month_le_31 (y m : Z) : days_in_month y m <= 31.
Proof.
  unfold days_in_month.
  destruct (m =? 2); [destruct (leap y); lia|].
  destruct ((m =? 4) || (m =? 6) || (m =? 9) || (m =? 11)); lia.
Qed.

(** X7. For a year of four digits and a well-formed instant, the window
    of the year holds the instant exactly when it is of that year and not
    of its December 31. *)
Theorem window_is_year_without_december_31 :
  forall (year : Z) (t : DateTime),
    1000 <= year <= 9999 -> valid_instant t ->
    (in_window (start_date year) (end_date year) t = Some true
     <-> dt_year t = year /\ ~ (dt_month t = 12 /\ dt_day t = 31)).
Proof.
  intros year t H [Mo [D S]].
  pose proof (days_in_month_le_31 (dt_year t) (dt_month t)) as B.
  rewrite in_window_year by exact H.
  destruct t as [y m d ms]. cbn [dt_year dt_month dt_day dt_ms] in *.
  unfold in_range, before, dt_compare. cbn [dt_year dt_month dt_day dt_ms].
  destruct (Z.compare_spec y year); cbn [negb andb];
    try (split; [discriminate|intros [? _]; lia]).
  destruct (Z.compare_spec m 1); cbn [negb andb]; try lia;
    destruct (Z.compare_spec m 12); cbn [negb andb]; try lia;
    repeat match goal with
           | |- context [?a ?= ?b] =>
               destruct (Z.compare_spec a b); cbn [negb andb]; try lia
           end;
    try (split; [intros _; split; [assumption|intros [? ?]; lia]|reflexivity]);
    try (split; [discriminate|intros [_ N]; exfalso; apply N; split; lia]).
Qed.

Lemma window_is_year_without_december_31_witness :
  in_window (start_date 2024) (end_date 2024) (mkDateTime 2024 2 29 0) = Some true
  <-> 2024 = 2024 /\ ~ (2 = 12 /\ 29 = 31).
Proof.
  apply (window_is_year_without_december_31 2024 (mkDateTime 2024 2 29 0)).
  - lia.
  - unfold valid_instant; cbn; lia.
Defined.

(** X8. The windows of two different years share no instant: no image is
    averaged into the composites of two years. *)
Theorem windows_are_disjoint :
  forall (year1 year2 : Z) (t : DateTime),
    1000 <= year1 <= 9999 -> 1000 <= year2 <= 9999 -> year1 <> year2 ->
    ~ (in_window (start_date year1) (end_date year1) t = Some true
       /\ in_window (start_date year2) (end_date year2) t = Some true).
Proof.
  intros y1 y2 t H1 H2 N [A B].
  destruct (Z.eq_dec (dt_year t) y1) as [E|E].
  - rewrite (window_excludes_other_years y2 t H2) in B by lia. discriminate.
  - rewrite (window_excludes_other_years y1 t H1 E) in A. discriminate.
Qed.

Lemma windows_are_disjoint_witness :
  ~ (in_window (start_date 2015) (end_date 2015) (mkDateTime 2016 1 1 0) = Some true
     /\ in_window (start_date 2016) (end_date 2016) (mkDateTime 2016 1 1 0) = Some true).
Proof.
  apply (windows_are_disjoint 2015 2016 (mkDateTime 2016 1 1 0)); lia.
Defined.

(** ** The value of the composite *)

Lemma band_value_masked_band (g : Granule) :
  band_value aod_band (masked_band g) = contribution g.
Proof.
  unfold band_value, masked_band, contribution. cbn [pixel set_pixel].
  rewrite select_band_twice.
  destruct (decide_mask (pixel g)); cbn [apply_mask]; [reflexivity|].
  rewrite select_band_mask_all.
  destruct (select_band aod_band (pixel g)) as [|[b v] l]; reflexivity.
Qed.

Lemma band_values_masked (gs : list Granule) :
  band_values aod_band (List.map masked_band gs) = List.flat_map contribution gs.
Proof.
  unfold band_values. induction gs as [|g gs IH]; [reflexivity|].
  cbn [List.map List.flat_map]. rewrite band_value_masked_band, IH. reflexivity.
Qed.

Lemma selected_in_catalog (catalog : string -> list Granule) (year : Z)
      (g : Granule) :
  In g (selected catalog year) -> In g (catalog collection_id).
Proof.
  unfold selected. intro I.
  apply filter_In in I. destruct I as [I _].
  apply filter_In in I. destruct I as [I _]. exact I.
Qed.

Lemma images_of_year (catalog : string -> list Granule) (year : Z) :
  1000 <= year <= 9999 ->
  forallb (fun g => has_band "AOD_QA" (pixel g)) (selected catalog year) = true ->
  forallb (fun g => has_band aod_band (pixel g)) (selected catalog year) = true ->
  images catalog
         (ee.select
            (ee.map
               (ee.filterBounds
                  (ee.filterDate (ee.ImageCollection_id collection_id)
                                 (start_date year) (end_date year))
                  usa)
               (maskAOD ee.arg))
            aod_band)
  = Some (List.map masked_band (selected catalog year)).
Proof.
  intros H Q A. destruct (parse_window year H) as [S E].
  cbn [images]. rewrite S, E. cbn [option_map].
  change (List.filter (fun x => intersects x usa)
            (List.filter
               (fun g => in_range (mkDateTime year 1 1 0)
                                  (mkDateTime year 12 31 0) (time_start g))
               (catalog collection_id)))
    with (selected catalog year).
  rewrite map_images_maskAOD, Q.
  rewrite select_images_spec, forallb_map. cbn [pixel set_pixel].
  rewrite (forallb_same _ (fun g => has_band aod_band (pixel g)))
    by (intro g; apply has_band_apply_mask).
  rewrite A, map_map. reflexivity.
Qed.

Lemma band_names_masked (g : Granule) (gs : list Granule) (v : option Z) :
  select_band aod_band (pixel g) = [(aod_band, v)] ->
  band_names (List.map masked_band (g :: gs)) = [aod_band].
Proof.
  intro S. cbn [List.map band_names]. unfold masked_band. cbn [pixel set_pixel].
  destruct (decide_mask (pixel g)); cbn [apply_mask].
  - rewrite S. reflexivity.
  - rewrite select_band_mask_all, S. reflexivity.
Qed.

(** X9. For a year of four digits, when each catalogue image has the AOD
    band and the quality band once each and some image is selected, the
    exported image has the one band [Optical_Depth_055]; outside the
    boundary it is masked, and inside its value is the scale factor times
    the mean of the stored AOD values of the images that are in the
    window, meet the boundary and pass the mask (masked when there is
    none). *)
Theorem composite_of_year :
  forall (catalog : string -> list Granule) (inside : ee.Geometry -> bool)
         (year : Z),
    1000 <= year <= 9999 ->
    Forall (fun g =>
              (exists v, select_band aod_band (pixel g) = [(aod_band, v)])
              /\ (exists v, select_band "AOD_QA" (pixel g) = [("AOD_QA", v)]))
           (catalog collection_id) ->
    selected catalog year <> [] ->
    composite catalog inside (image (task year))
    = Some [(aod_band,
             if inside usa
             then option_map (fun m => Qmult m scale_factor)
                    (mean_of (List.flat_map contribution (selected catalog year)))
             else None)].
Proof.
  intros catalog inside year H W N.
  rewrite Forall_forall in W.
  assert (Q : forallb (fun g => has_band "AOD_QA" (pixel g))
                      (selected catalog year) = true).
  { apply forallb_forall. intros g I.
    destruct (W g (selected_in_catalog catalog year g I)) as [_ [v E]].
    unfold has_band. rewrite E. reflexivity. }
  assert (A : forallb (fun g => has_band aod_band (pixel g))
                      (selected catalog year) = true).
  { apply forallb_forall. intros g I.
    destruct (W g (selected_in_catalog catalog year g I)) as [[v E] _].
    unfold has_band. rewrite E. reflexivity. }
  cbn [composite image task annual_mean_aod].
  rewrite (images_of_year catalog year H Q A). cbn [option_map].
  destruct (selected catalog year) as [|g gs] eqn:F; [destruct (N eq_refl)|].
  assert (G : exists v, select_band aod_band (pixel g) = [(aod_band, v)]).
  { apply W, (selected_in_catalog catalog year). rewrite F. left. reflexivity. }
  destruct G as [v G].
  unfold mean_pixel. rewrite (band_names_masked g gs v G).
  rewrite <- band_values_masked.
  destruct (inside usa); reflexivity.
Qed.

Lemma composite_of_year_witness :
  composite sample_catalog (fun _ => true) (image (task 2015))
  = Some [(aod_band,
           option_map (fun m => Qmult m scale_factor)
             (mean_of (List.flat_map contribution (selected sample_catalog 2015))))].
Proof.
  apply (composite_of_year sample_catalog (fun _ => true) 2015).
  - lia.
  - repeat constructor; eexists; reflexivity.
  - discriminate.
Defined.

(** X10. Whatever the catalogue holds, every band of the exported image
    is named [Optical_Depth_055] (the quality band is not exported), and
    at a pixel outside the boundary every band is masked. *)
Theorem exported_bands :
  forall (catalog : string -> list Granule) (inside : ee.Geometry -> bool)
         (year : Z) (p : QPixel),
    composite catalog inside (image (task year)) = Some p ->
    Forall (fun bv => fst bv = aod_band) p
    /\ (inside usa = false -> Forall (fun bv => snd bv = None) p).
Proof.
  intros catalog inside year p H.
  cbn [composite image task annual_mean_aod] in H.
  destruct (images catalog _) as [gs|] eqn:G; [|discriminate].
  cbn [option_map] in H. injection H as <-.
  pose proof (annual_images catalog year _ gs eq_refl G) as A.
  split.
  - apply Forall_forall. intros bv B.
    assert (C : In (fst bv) (band_names gs)).
    { unfold clip_pixel in B.
      destruct (inside usa);
        [|apply in_map_iff in B; destruct B as [bv' [<- B]]; cbn [fst]];
        unfold scale_pixel in B; apply in_map_iff in B;
        destruct B as [bv'' [<- B]]; cbn [fst];
        unfold mean_pixel in B; apply in_map_iff in B;
        destruct B as [band [<- B]]; exact B. }
    destruct gs as [|g gs]; [destruct C|].
    apply Forall_inv in A. destruct A as [g0 [_ ->]].
    cbn [band_names] in C. unfold masked_band in C. cbn [pixel set_pixel] in C.
    apply in_map_iff in C. destruct C as [bv' [<- C]].
    apply filter_In in C. destruct C as [_ C].
    apply String.eqb_eq. exact C.
  - intro O. rewrite O. cbn [clip_pixel].
    apply Forall_forall. intros bv B.
    apply in_map_iff in B. destruct B as [bv' [<- _]]. reflexivity.
Qed.

Lemma exported_bands_witness :
  Forall (fun bv => fst bv = aod_band) [("Optical_Depth_055", @None Q)]
  /\ (false = false ->
      Forall (fun bv : string * option Q => snd bv = None)
             [("Optical_Depth_055", @None Q)]).
Proof.
  apply (exported_bands sample_catalog (fun _ => false) 2015
           [("Optical_Depth_055", None)]).
  vm_compute. reflexivity.
Defined.

(** ** The boundary is built once *)

Lemma external_app (l l' : list step) :
  external (l ++ l') = (external l ++ external l')%list.
Proof. unfold external. apply flat_map_app. Qed.

Lemma external_of_events (l : list event) :
  external (List.map External l) = l.
Proof.
  induction l as [|ev l IH]; [reflexivity|].
  cbn. unfold external in IH. rewrite IH. reflexivity.
Qed.

Lemma add_steps_twice (m : Memory) (l l' : list step) :
  add_steps (add_steps m l) l' = add_steps m (l ++ l').
Proof. unfold add_steps. cbn. rewrite app_assoc. reflexivity. Qed.

Lemma started_external (tr : list step) (t : Task) :
  In t (started (external tr)) <-> In (External (Start t)) tr.
Proof.
  induction tr as [|st tr IH]; [reflexivity|].
  destruct st as [[line| | |t']|ref g|ref|year s ref]; cbn;
    rewrite IH; split;
    try (intros [E|H]; [discriminate E|exact H]);
    try (intro H; right; exact H).
  - intros [<-|H]; [left; reflexivity|right; exact H].
  - intros [E|H]; [injection E as <-; left; reflexivity|right; exact H].
Qed.

Lemma submit_year_r_run (w : World) (year : Z) (m : Memory) :
  usa_ref m = Some 0%nat -> objects m = [usa] ->
  submit_year_r w year m =
  match start_raises w (task year) with
  | None => (add_steps m (year_steps w year), Return tt)
  | Some x =>
      (add_steps m
         [ External (Print ("Submitting export task for year: " ++ str year ++ "..."));
           ReadUsa year filterBounds_argument 0;
           ReadUsa year clip_argument 0;
           External (Start (task year)) ],
       Raise x)
  end.
Proof.
  intros U O. destruct m as [objs u tr]. cbn in U, O. subst u objs.
  unfold submit_year_r, bind_r, print_r, task_start_r, call_r, read_usa,
    add_steps, year_steps.
  cbn [objects usa_ref trace List.nth_error raised].
  change (task_with usa usa year) with (task year).
  destruct (start_raises w (task year)); cbn [raised];
    rewrite <- !app_assoc; reflexivity.
Qed.

(** The loop, from a memory where [usa] is bound to the first and only
    object: it adds steps that leave the boundary alone, reads the name
    twice for each task it starts, and its external events are those of
    the loop of [script]. *)
Lemma for_each_r_run (w : World) (ys : list Z) :
  forall m,
    usa_ref m = Some 0%nat -> objects m = [usa] ->
    exists post r,
      for_each_r ys (submit_year_r w) m = (add_steps m post, r)
      /\ Forall keeps_boundary post
      /\ for_each ys (submit_year w) (external (trace m))
         = ((external (trace m) ++ external post)%list, r)
      /\ forall t, In (External (Start t)) post ->
                   exists y, In y ys /\ t = task y
                             /\ In (ReadUsa y filterBounds_argument 0) post
                             /\ In (ReadUsa y clip_argument 0) post.
Proof.
  induction ys as [|y ys IH]; intros m U O.
  - exists [], (Return tt). unfold add_steps. cbn. rewrite !app_nil_r.
    destruct m. repeat split; [constructor|]. intros t [].
  - cbn [for_each_r]. unfold bind_r at 1.
    rewrite (submit_year_r_run w y m U O), for_each_cons, submit_year_run.
    destruct (start_raises w (task y)) as [x|].
    + eexists _, (Raise x). split; [reflexivity|].
      split; [repeat constructor|]. split; [reflexivity|].
      intros t T. exists y. split; [left; reflexivity|].
      cbn in T. destruct T as [T|[T|[T|[T|[]]]]]; try discriminate T.
      injection T as <-. split; [reflexivity|].
      split; [right; left; reflexivity|right; right; left; reflexivity].
    + destruct (IH (add_steps m (year_steps w y)) U O)
        as [post [r [E [K [L T]]]]].
      exists (year_steps w y ++ post)%list, r.
      rewrite E, add_steps_twice. split; [reflexivity|].
      split; [apply Forall_app; split; [repeat constructor|exact K]|].
      split.
      * cbn [add_steps trace] in L. rewrite external_app in L.
        rewrite external_app, app_assoc. exact L.
      * intros t H. apply in_app_or in H. destruct H as [H|H].
        -- exists y. split; [left; reflexivity|].
           cbn in H. destruct H as [H|[H|[H|[H|[H|[]]]]]]; try discriminate H.
           injection H as <-. split; [reflexivity|].
           split; apply in_or_app; left;
             [right; left; reflexivity|right; right; left; reflexivity].
        -- destruct (T t H) as [y' [I [-> [F C]]]].
           exists y'. split; [right; exact I|]. split; [reflexivity|].
           split; apply in_or_app; right; assumption.
Qed.

Lemma initialize_session_r_run (w : World) :
  initialize_session_r w (mkMemory [] None [External (Print start_message)])
  = (mkMemory [] None (List.map External (Print start_message :: session_log w)),
     session_result w).
Proof.
  unfold initialize_session_r, try_except_r, ee_Initialize_r, ee_Authenticate_r,
    bind_r, call_r, add_steps, session_log, session_result.
  cbn [trace objects usa_ref external external_event List.flat_map app calls
       List.filter is_Initialize List.length].
  destruct (Initialize_raises w 0) as [[m|m]|]; try reflexivity.
  destruct (Authenticate_raises w) as [e|]; [reflexivity|].
  cbn. destruct (Initialize_raises w 1); reflexivity.
Qed.

Lemma final_message_r_run (m : Memory) :
  final_message_r m = (add_steps m (List.map External final_log), Return tt).
Proof.
  unfold final_message_r, bind_r, print_r, call_r, final_log, add_steps.
  cbn [trace objects usa_ref raised List.map]. rewrite <- !app_assoc. reflexivity.
Qed.

Lemma no_start_in_session_log (w : World) (t : Task) :
  ~ In (Start t) (session_log w).
Proof.
  unfold session_log.
  destruct (Initialize_raises w 0) as [[m|m]|];
    [destruct (Authenticate_raises w)| |]; cbn; intuition discriminate.
Qed.

(** C8. When initialization succeeds, the run builds one geometry object,
    the boundary, and binds the name [usa] to it right after the
    initialization, before the loop; every later step leaves it alone (no
    object is built, the name is not bound again, every read finds that
    object), so the memory ends with that one object; each task started
    has read the name for its bounds filter and for its clip, and both
    geometries are the boundary.  The external events and the outcome are
    those of [run]. *)
Theorem boundary_sourced_once :
  forall (w : World) (start_year end_year : Z),
    session_ok w = true ->
    exists post,
      trace (fst (run_r w start_year end_year))
      = (List.map External (Print start_message :: session_log w)
         ++ NewGeometry 0 usa :: BindUsa 0 :: post)%list
      /\ Forall keeps_boundary post
      /\ objects (fst (run_r w start_year end_year)) = [usa]
      /\ usa_ref (fst (run_r w start_year end_year)) = Some 0%nat
      /\ external (trace (fst (run_r w start_year end_year)))
         = fst (run w start_year end_year)
      /\ snd (run_r w start_year end_year) = snd (run w start_year end_year)
      /\ forall t,
          In t (started (fst (run w start_year end_year))) ->
          exists year,
            start_year <= year <= end_year /\ t = task year
            /\ In (ReadUsa year filterBounds_argument 0) post
            /\ In (ReadUsa year clip_argument 0) post
            /\ filter_geometries (image t) = [usa]
            /\ clip_geometries (image t) = [usa].
Proof.
  intros w s e I.
  set (pre := List.map External (Print start_message :: session_log w)).
  set (m3 := mkMemory [usa] (Some 0%nat) (pre ++ [NewGeometry 0 usa; BindUsa 0])).
  destruct (for_each_r_run w (range s (e + 1)) m3 eq_refl eq_refl)
    as [post [r [E [K [L T]]]]].
  assert (X : external (trace m3) = Print start_message :: session_log w).
  { unfold m3, pre. cbn [trace]. rewrite external_app, external_of_events.
    change (external [NewGeometry 0 usa; BindUsa 0]) with (@nil event).
    apply app_nil_r. }
  rewrite X in L.
  assert (RR : run_r w s e
               = match r with
                 | Return _ =>
                     (add_steps m3 (post ++ List.map External final_log), Return tt)
                 | Raise x => (add_steps m3 post, Raise x)
                 end).
  { unfold run_r, script_r.
    unfold bind_r at 1. unfold print_r at 1, call_r at 1, add_steps at 1.
    cbn [trace objects usa_ref app raised]. fold start_message.
    unfold bind_r at 1. rewrite initialize_session_r_run.
    rewrite (session_ok_result w I).
    unfold bind_r at 1. unfold define_usa, bind_r at 1, new_geometry, bind_usa.
    cbn [trace objects usa_ref app List.length].
    rewrite <- app_assoc. cbn [app]. fold pre. fold m3.
    unfold bind_r. rewrite E.
    destruct r as [[]|x]; [|reflexivity].
    rewrite final_message_r_run, add_steps_twice. reflexivity. }
  assert (RU : run w s e
               = match r with
                 | Return _ =>
                     (((Print start_message :: session_log w) ++ external post
                       ++ final_log)%list, Return tt)
                 | Raise x =>
                     (((Print start_message :: session_log w) ++ external post)%list,
                      Raise x)
                 end).
  { rewrite run_unfold, (session_ok_result w I), L.
    destruct r as [[]|x]; [|reflexivity].
    rewrite <- app_assoc. reflexivity. }
  assert (S : forall t tail,
             In t (started ((Print start_message :: session_log w)
                            ++ external post ++ tail)) ->
             ~ In (Start t) tail ->
             exists year,
               s <= year <= e /\ t = task year
               /\ In (ReadUsa year filterBounds_argument 0) post
               /\ In (ReadUsa year clip_argument 0) post
               /\ filter_geometries (image t) = [usa]
               /\ clip_geometries (image t) = [usa]).
  { intros t tail H N.
    assert (H' : In (External (Start t))
                    (List.map External (Print start_message :: session_log w)
                     ++ post ++ List.map External tail)).
    { apply started_external.
      rewrite !external_app, !external_of_events. exact H. }
    apply in_app_or in H'. destruct H' as [H'|H'].
    { apply in_map_iff in H'. destruct H' as [ev [Q H']].
      injection Q as ->. destruct H' as [H'|H']; [discriminate H'|].
      destruct (no_start_in_session_log w t H'). }
    apply in_app_or in H'. destruct H' as [H'|H'].
    - destruct (T t H') as [y [Y [-> [F C]]]]. exists y.
      apply In_range in Y.
      split; [lia|]. split; [reflexivity|]. split; [exact F|].
      split; [exact C|]. split; reflexivity.
    - apply in_map_iff in H'. destruct H' as [ev [Q H']].
      injection Q as ->. destruct (N H'). }
  rewrite RR, RU.
  destruct r as [[]|x]; cbn [fst snd add_steps trace objects usa_ref].
  - exists (post ++ List.map External final_log)%list.
    split; [unfold m3; cbn [trace]; rewrite <- app_assoc; reflexivity|].
    split; [apply Forall_app; split; [exact K|repeat constructor]|].
    split; [reflexivity|]. split; [reflexivity|].
    split.
    { unfold m3, pre. cbn [trace].
      rewrite !external_app, !external_of_events.
      change (external [NewGeometry 0 usa; BindUsa 0]) with (@nil event).
      rewrite app_nil_r. reflexivity. }
    split; [reflexivity|].
    intros t H.
    destruct (S t final_log H) as [y [Y [E' [F [C G]]]]].
    + cbn. intuition discriminate.
    + exists y. split; [exact Y|]. split; [exact E'|].
      split; [apply in_or_app; left; exact F|].
      split; [apply in_or_app; left; exact C|exact G].
  - exists post.
    split; [unfold m3; cbn [trace]; rewrite <- app_assoc; reflexivity|].
    split; [exact K|]. split; [reflexivity|]. split; [reflexivity|].
    split.
    { unfold m3, pre. cbn [trace].
      rewrite !external_app, !external_of_events.
      change (external [NewGeometry 0 usa; BindUsa 0]) with (@nil event).
      rewrite app_nil_r. reflexivity. }
    split; [reflexivity|].
    intros t H. apply (S t []); [rewrite app_nil_r; exact H|intros []].
Qed.

Lemma boundary_sourced_once_witness :
  exists post,
    trace (fst (run_r world_ok 2020 2021))
    = (List.map External (Print start_message :: session_log world_ok)
       ++ NewGeometry 0 usa :: BindUsa 0 :: post)%list
    /\ Forall keeps_boundary post
    /\ objects (fst (run_r world_ok 2020 2021)) = [usa]
    /\ usa_ref (fst (run_r world_ok 2020 2021)) = Some 0%nat
    /\ external (trace (fst (run_r world_ok 2020 2021)))
       = fst (run world_ok 2020 2021)
    /\ snd (run_r world_ok 2020 2021) = snd (run world_ok 2020 2021)
    /\ forall t,
        In t (started (fst (run world_ok 2020 2021))) ->
        exists year,
          2020 <= year <= 2021 /\ t = task year
          /\ In (ReadUsa year filterBounds_argument 0) post
          /\ In (ReadUsa year clip_argument 0) post
          /\ filter_geometries (image t) = [usa]
          /\ clip_geometries (image t) = [usa].
Proof.
  apply (boundary_sourced_once world_ok 2020 2021). reflexivity.
Defined.

(** The steps of the run for the single year 2020, in a world where
    every call returns. *)
Example run_r_single_year :
  trace (fst (run_r world_ok 2020 2020))
  = (List.map External [Print start_message; Initialize]
     ++ [NewGeometry 0 usa; BindUsa 0]
     ++ year_steps world_ok 2020
     ++ List.map External final_log)%list.
Proof. vm_compute. reflexivity. Qed.

(** Without the quality band, [maskAOD] is an error. *)
Lemma maskAOD_needs_quality_band (p : Pixel) :
  has_band "AOD_QA" p = false -> eval (maskAOD ee.arg) p = None.
Proof. intro H. rewrite eval_maskAOD, H. reflexivity. Qed.
